(** * NVMe failure-risk dashboard: the front-end pipeline of [frontend/script.js]

    A shallow embedding of the pure parts of the dashboard script (label
    formatting, feature normalization and its inverse, input collection and
    validation, summary banding, contribution ranking, radar-chart data) and
    the properties of the specification that concern them.

    Conventions of the embedding.
    - A JavaScript Number is a [number]: an exact rational, [PosInf], [NegInf]
      or [NaN].  Finite arithmetic is exact: binary64 rounding, overflow to
      Infinity and the sign of zero are not modelled.
    - A JavaScript string is a [string] whose characters are the code units
      0..255 (Latin-1); the degree sign is the single code unit 176.
    - An object used as an ordered record of properties ([featureDefaults],
      the collected input data, a [contributions] object) is the list that
      [Object.entries] returns for it.  An object literal used as a lookup
      table ([maxValues]) is a finite map of its own properties; the names
      that every object inherits (such as [constructor]) are not feature
      names.
    - The DOM is abstracted to the data that the script reads from it (the
      text of the input fields, which canvases exist) and to view models of
      what the script writes into it. *)

From Stdlib Require Import QArith Qminmax Qround Qabs Lqa ZArith Lia.
From Stdlib Require Import String Ascii DecimalString List Permutation Sorted.
From stdpp Require Import gmap strings list sorting.

Local Open Scope Q_scope.
Local Open Scope string_scope.

(** ** JavaScript numbers *)

Module JS.

Inductive number : Type :=
| Fin (q : Q)
| PosInf
| NegInf
| NaN.


Definition Qlt_bool (x y : Q) : bool := negb (Qle_bool y x).

(** The global functions [isNaN] and [isFinite] on a Number. *)
Definition isNaN (n : number) : bool :=
  match n with NaN => true | _ => false end.

Definition isFinite (n : number) : bool :=
  match n with Fin _ => true | _ => false end.

(** Zero and [NaN] are the falsy numbers. *)
Definition truthy (n : number) : bool :=
  match n with
  | Fin q => negb (Qeq_bool q 0)
  | NaN => false
  | _ => true
  end.

(** [a < b]; every comparison with [NaN] is false. *)
Definition lt (a b : number) : bool :=
  match a, b with
  | NaN, _ | _, NaN => false
  | Fin x, Fin y => Qlt_bool x y
  | NegInf, NegInf => false
  | NegInf, _ => true
  | _, NegInf => false
  | PosInf, _ => false
  | Fin _, PosInf => true
  end.

(** [a <= b]. *)
Definition le (a b : number) : bool :=
  match a, b with
  | NaN, _ | _, NaN => false
  | Fin x, Fin y => Qle_bool x y
  | NegInf, _ => true
  | _, NegInf => false
  | _, PosInf => true
  | PosInf, Fin _ => false
  end.

(** [a === b] on numbers: [NaN] is not equal to itself. *)
Definition eq (a b : number) : bool :=
  match a, b with
  | Fin x, Fin y => Qeq_bool x y
  | PosInf, PosInf | NegInf, NegInf => true
  | _, _ => false
  end.

(** [a > b] and [a >= b]. *)
Definition gt (a b : number) : bool := lt b a.
Definition ge (a b : number) : bool := le b a.

Definition neg (a : number) : number :=
  match a with
  | Fin x => Fin (Qred (- x))
  | PosInf => NegInf
  | NegInf => PosInf
  | NaN => NaN
  end.

(** The infinity with the sign of [x] when [x] is not zero. *)
Definition signed_inf (x : Q) : number :=
  if Qeq_bool x 0 then NaN else if Qlt_bool 0 x then PosInf else NegInf.

(** [a * b]. *)
Definition mul (a b : number) : number :=
  match a, b with
  | NaN, _ | _, NaN => NaN
  | Fin x, Fin y => Fin (Qred (x * y))
  | Fin x, PosInf | PosInf, Fin x => signed_inf x
  | Fin x, NegInf | NegInf, Fin x => neg (signed_inf x)
  | PosInf, PosInf | NegInf, NegInf => PosInf
  | PosInf, NegInf | NegInf, PosInf => NegInf
  end.

(** [a / b]; a zero divisor is the positive zero. *)
Definition div (a b : number) : number :=
  match a, b with
  | NaN, _ | _, NaN => NaN
  | Fin x, Fin y => if Qeq_bool y 0 then signed_inf x else Fin (Qred (x / y))
  | Fin _, _ => Fin 0
  | PosInf, Fin y => if Qlt_bool y 0 then NegInf else PosInf
  | NegInf, Fin y => if Qlt_bool y 0 then PosInf else NegInf
  | _, _ => NaN
  end.

(** [a - b]. *)
Definition sub (a b : number) : number :=
  match a, b with
  | NaN, _ | _, NaN => NaN
  | Fin x, Fin y => Fin (Qred (x - y))
  | PosInf, PosInf | NegInf, NegInf => NaN
  | PosInf, _ | _, NegInf => PosInf
  | NegInf, _ | _, PosInf => NegInf
  end.

(** [Math.min(a, b)]: [NaN] when an argument is [NaN]. *)
Definition Math_min (a b : number) : number :=
  match a, b with
  | NaN, _ | _, NaN => NaN
  | _, _ => if le a b then a else b
  end.

End JS.

(** ** JavaScript strings *)

Module Str.

Definition code (c : ascii) : N := N_of_ascii c.

Definition in_range (lo hi : N) (c : ascii) : bool :=
  ((lo <=? code c) && (code c <=? hi))%N.

(** The degree sign, U+00B0. *)
Definition degree_sign : ascii := "176"%char.

(** The class [\s] below code unit 256: TAB, LF, VT, FF, CR, SP, NBSP. *)
Definition is_whitespace (c : ascii) : bool :=
  in_range 9 13 c || (code c =? 32)%N || (code c =? 160)%N.

(** The class [\w]: ASCII letters, digits and the underscore. *)
Definition is_word (c : ascii) : bool :=
  in_range 65 90 c || in_range 97 122 c || in_range 48 57 c || (code c =? 95)%N.

Definition is_digit (c : ascii) : bool := in_range 48 57 c.

(** [l.toUpperCase()] for a one-character string [l] that matches [\w]:
    only the letters a..z change. *)
Definition toUpperCase_word (c : ascii) : ascii :=
  if in_range 97 122 c then ascii_of_N (code c - 32) else c.

(** [c.toLowerCase()] on one code unit below 256: A..Z and the accented
    capitals U+00C0..U+00DE (but not the multiplication sign U+00D7). *)
Definition toLowerCase_char (c : ascii) : ascii :=
  if in_range 65 90 c || in_range 192 214 c || in_range 216 222 c
  then ascii_of_N (code c + 32) else c.

Fixpoint toLowerCase (s : string) : string :=
  match s with
  | EmptyString => EmptyString
  | String c s' => String (toLowerCase_char c) (toLowerCase s')
  end.

Fixpoint drop (n : nat) (s : string) : string :=
  match n, s with
  | S k, String _ s' => drop k s'
  | _, _ => s
  end.

(** Removes the leading white space: [TrimString(s, start)]. *)
Fixpoint trim_start (s : string) : string :=
  match s with
  | String c s' => if is_whitespace c then trim_start s' else s
  | EmptyString => EmptyString
  end.

(** A pattern together with its replacement: given the character before
    the current position (if any) and the rest of the subject, the length
    of the match that starts here and the text that replaces it. *)
Definition matcher : Type := option ascii -> string -> option (nat * string).

(** [s.replace(re, rep)] for a regular expression with the [g] flag: the
    subject is scanned from the left and every match is replaced; the scan
    resumes after the match.  [skip] counts the characters of the current
    match that are still to be consumed.  The patterns of the script never
    match the empty string. *)
Fixpoint replace_g (re : matcher) (prev : option ascii) (skip : nat)
    (s : string) : string :=
  match s with
  | EmptyString => EmptyString
  | String c s' =>
      match skip with
      | S k => replace_g re (Some c) k s'
      | O =>
          match re prev s with
          | Some (S k, rep) => rep ++ replace_g re (Some c) k s'
          | _ => String c (replace_g re (Some c) 0 s')
          end
      end
  end.

(** [s.replace(pattern, rep)] without the [g] flag: only the first match
    is replaced. *)
Fixpoint replace_1 (re : matcher) (prev : option ascii) (s : string) : string :=
  match s with
  | EmptyString => EmptyString
  | String c s' =>
      match re prev s with
      | Some (n, rep) => rep ++ drop n s
      | None => String c (replace_1 re (Some c) s')
      end
  end.

(** A string pattern: matches its own text, literally. *)
Definition literal (pat rep : string) : matcher :=
  fun _ s => if String.prefix pat s then Some (String.length pat, rep) else None.

(** ** [parseFloat] *)

Definition digit_value (c : ascii) : N := (code c - 48)%N.

(** Reads the longest run of decimal digits: its value (continuing [acc]),
    the number of digits read, and the rest of the string. *)
Fixpoint read_digits (s : string) (acc : N) (count : nat) : N * nat * string :=
  match s with
  | String c s' =>
      if is_digit c then read_digits s' (acc * 10 + digit_value c)%N (S count)
      else (acc, count, s)
  | EmptyString => (acc, count, EmptyString)
  end.

(** The value of an [ExponentPart] at the start of [s], or 0 when there
    is none ([e] or [E], an optional sign, at least one digit). *)
Definition read_exponent (s : string) : Z :=
  match s with
  | String c s' =>
      if (code c =? 101)%N || (code c =? 69)%N then
        let '(negative, s'') :=
          match s' with
          | String d t =>
              if (code d =? 45)%N then (true, t)
              else if (code d =? 43)%N then (false, t)
              else (false, s')
          | EmptyString => (false, s')
          end in
        let '(e, count, _) := read_digits s'' 0 0 in
        match count with
        | O => 0%Z
        | S _ => if negative then (- Z.of_N e)%Z else Z.of_N e
        end
      else 0%Z
  | EmptyString => 0%Z
  end.

(** The longest prefix of [s] that is a [StrUnsignedDecimalLiteral], as a
    number; [None] when no prefix is one. *)
Definition parse_unsigned (s : string) : option JS.number :=
  if String.prefix "Infinity" s then Some JS.PosInf
  else
    let '(ip, ic, r1) := read_digits s 0 0 in
    let '(m, fc, r2) :=
      match r1 with
      | String c r =>
          if (code c =? 46)%N then read_digits r ip 0 else (ip, O, r1)
      | EmptyString => (ip, O, r1)
      end in
    match (ic + fc)%nat with
    | O => None
    | S _ =>
        let e := (read_exponent r2 - Z.of_nat fc)%Z in
        Some (JS.Fin (Qred (inject_Z (Z.of_N m) * Qpower 10 e)))
    end.

(** [parseFloat(s)]. *)
Definition parseFloat (s : string) : JS.number :=
  let t := trim_start s in
  let r :=
    match t with
    | String c t' =>
        if (code c =? 45)%N then option_map JS.neg (parse_unsigned t')
        else if (code c =? 43)%N then parse_unsigned t'
        else parse_unsigned t
    | EmptyString => None
    end in
  match r with
  | Some n => n
  | None => JS.NaN
  end.

(** ** [Number.prototype.toFixed] *)

Definition string_of_N (n : N) : string :=
  DecimalString.NilZero.string_of_uint (N.to_uint n).

Fixpoint zeros (n : nat) : string :=
  match n with
  | O => EmptyString
  | S k => String "0" (zeros k)
  end.

(** The integer [n] for which [n / 10^f] is nearest to [q], the larger
    one when two are equally near; [q] is not negative. *)
Definition round_scaled (f : nat) (q : Q) : N :=
  Z.to_N (Qfloor (q * 10 ^ (Z.of_nat f) + (1 # 2))).

(** The digits of [n] with a decimal point before the last [f] of them,
    after padding with zeros to at least [f + 1] digits. *)
Definition fixed_digits (f : nat) (n : N) : string :=
  let m := string_of_N n in
  let m := zeros (S f - String.length m) ++ m in
  let k := String.length m in
  match f with
  | O => m
  | S _ => String.substring 0 (k - f) m ++ "." ++ drop (k - f) m
  end.

(** [x.toFixed(f)].  The sign is split off, the magnitude is rounded to the
    nearest multiple of [10^-f] and printed with exactly [f] decimals.  From
    [10^21] on JavaScript prints the binary64 value in exponent notation,
    which an exact rational does not determine: the result is [None]
    there. *)
Definition toFixed (f : nat) (x : JS.number) : option string :=
  match x with
  | JS.NaN => Some "NaN"
  | JS.PosInf => Some "Infinity"
  | JS.NegInf => Some "-Infinity"
  | JS.Fin q =>
      if Qle_bool (10 ^ 21) (Qabs q) then None
      else
        Some ((if JS.Qlt_bool q 0 then "-" else EmptyString)
              ++ fixed_digits f (round_scaled f (Qabs q)))
  end.

End Str.

(** ** JavaScript arrays and objects *)

Module Arr.

Section Sort.
Context {A : Type} (comparefn : A -> A -> JS.number).

(** [x] goes behind [y] only when [comparefn(x, y) > 0]; a [NaN] result
    counts as zero. *)
Fixpoint insert (x : A) (l : list A) : list A :=
  match l with
  | [] => [x]
  | y :: l' =>
      if JS.gt (comparefn x y) (JS.Fin 0) then y :: insert x l'
      else x :: y :: l'
  end.

(** [l.sort(comparefn)].  The standard requires a stable sort, which for a
    consistent comparison function determines the result; insertion from
    the right is one such sort. *)
Definition sort (l : list A) : list A := foldr insert [] l.
End Sort.

(** [l.slice(0, n)]. *)
Definition slice0 {A : Type} (n : nat) (l : list A) : list A := take n l.

End Arr.

(** An object as the list of its own enumerable properties, in
    [Object.entries] order.  Property names are not array indices. *)
Definition object : Type := list (string * JS.number).

Definition Object_keys (o : object) : list string := o.*1.
Definition Object_values (o : object) : list JS.number := o.*2.

(** [o[k] = v]: an existing property keeps its place, a new one is added
    last. *)
Fixpoint set_property (k : string) (v : JS.number) (o : object) : object :=
  match o with
  | [] => [(k, v)]
  | (k', v') :: o' =>
      if String.eqb k' k then (k, v) :: o' else (k', v') :: set_property k v o'
  end.

(** [x || d] for a property read [x]; [None] is [undefined], which is
    falsy. *)
Definition or_default (x : option JS.number) (d : JS.number) : JS.number :=
  match x with
  | Some n => if JS.truthy n then n else d
  | None => d
  end.

(** The property key that an array element read gives: [undefined] becomes
    the key ["undefined"]. *)
Definition property_key (name : option string) : string :=
  default "undefined" name.

(** ** Label formatting *)

(** [/_/g] replaced by a space. *)
Definition re_underscore : Str.matcher :=
  fun _ s =>
    match s with
    | String c _ => if (Str.code c =? 95)%N then Some (1%nat, " ") else None
    | EmptyString => None
    end.

(** [/\b\w/g] replaced by [l => l.toUpperCase()]: a word character that
    follows the start of the string or a non-word character. *)
Definition re_word_start : Str.matcher :=
  fun prev s =>
    match s with
    | String c _ =>
        if Str.is_word c && negb (from_option Str.is_word false prev)
        then Some (1%nat, String (Str.toUpperCase_word c) EmptyString)
        else None
    | EmptyString => None
    end.

(** [/ C(?=\s|$)/g] replaced by [' (°C)']: the look-ahead is not part of
    the match. *)
Definition re_trailing_C : Str.matcher :=
  fun _ s =>
    if String.prefix " C" s then
      match Str.drop 2 s with
      | EmptyString => Some (2%nat, String.append " (" (String Str.degree_sign "C)"))
      | String d _ =>
          if Str.is_whitespace d
          then Some (2%nat, String.append " (" (String Str.degree_sign "C)"))
          else None
      end
    else None.

Definition formatLabel (text : string) : string :=
  let formatted := Str.replace_g re_underscore None 0 text in
  let formatted := Str.replace_g re_word_start None 0 formatted in
  let formatted := Str.replace_1 (Str.literal "Tb" "TB") None formatted in
  let formatted := Str.replace_g re_trailing_C None 0 formatted in
  formatted.

(** ** Normalization and its inverse *)

(** The table [maxValues] of [normalizeFeatureValue]. *)
Definition maxValues : gmap string JS.number :=
  list_to_map
    [("Power_On_Hours", JS.Fin 60000);
     ("Total_TBW_TB", JS.Fin 1000);
     ("Total_TBR_TB", JS.Fin 800);
     ("Temperature_C", JS.Fin 90);
     ("Percent_Life_Used", JS.Fin 150);
     ("Media_Errors", JS.Fin 10);
     ("Unsafe_Shutdowns", JS.Fin 10);
     ("CRC_Errors", JS.Fin 5);
     ("Read_Error_Rate", JS.Fin 20);
     ("Write_Error_Rate", JS.Fin 15)].

Definition normalizeFeatureValue (featureDefaults : object)
    (value : JS.number) (index : nat) : JS.number :=
  let featureNames := Object_keys featureDefaults in
  let featureName := featureNames !! index in
  let maxValue := or_default (maxValues !! property_key featureName) (JS.Fin 100) in
  JS.Math_min (JS.mul (JS.div value maxValue) (JS.Fin 100)) (JS.Fin 100).

(** [/\s*\(°C\)/g] replaced by [' C']: the white space before the unit is
    part of the match. *)
Definition re_degree_unit : Str.matcher :=
  fun _ s =>
    let r := Str.trim_start s in
    if String.prefix (String "(" (String Str.degree_sign "C)")) r
    then Some ((String.length s - String.length r + 4)%nat, " C")
    else None.

(** [/\s+/g] replaced by ['_']. *)
Definition re_spaces : Str.matcher :=
  fun _ s =>
    match (String.length s - String.length (Str.trim_start s))%nat with
    | O => None
    | n => Some (n, "_")
    end.

(** The key that [getOriginalValueFromNormalized] derives from a label. *)
Definition featureName_of_label (featureLabel : string) : string :=
  let s := Str.replace_g re_degree_unit None 0 featureLabel in
  let s := Str.replace_g re_spaces None 0 s in
  let s := Str.toLowerCase s in
  let s := Str.replace_1 (Str.literal "tbw_tb" "tbw_tb") None s in
  let s := Str.replace_1 (Str.literal "tbr_tb" "tbr_tb") None s in
  s.

(** The form of the keys of the inverse table: no white space and no
    capital letter. *)
Fixpoint lowercase_key (s : string) : bool :=
  match s with
  | EmptyString => true
  | String c s' =>
      negb (Str.is_whitespace c) && Ascii.eqb (Str.toLowerCase_char c) c
      && lowercase_key s'
  end.

(** The table [maxValues] of [getOriginalValueFromNormalized]. *)
Definition maxValues_lower : gmap string JS.number :=
  list_to_map
    [("power_on_hours", JS.Fin 60000);
     ("total_tbw_tb", JS.Fin 1000);
     ("total_tbr_tb", JS.Fin 800);
     ("temperature_c", JS.Fin 90);
     ("percent_life_used", JS.Fin 150);
     ("media_errors", JS.Fin 10);
     ("unsafe_shutdowns", JS.Fin 10);
     ("crc_errors", JS.Fin 5);
     ("read_error_rate", JS.Fin 20);
     ("write_error_rate", JS.Fin 15)].

Definition getOriginalValueFromNormalized (normalizedValue : JS.number)
    (featureLabel : string) : option string :=
  let featureName := featureName_of_label featureLabel in
  let maxValue := or_default (maxValues_lower !! featureName) (JS.Fin 100) in
  Str.toFixed 2 (JS.mul (JS.div normalizedValue (JS.Fin 100)) maxValue).

(** ** Collecting and validating the input *)

(** An [<input>] element of the form, as the script reads it. *)
Record input_element : Type := { id : string; value : string }.

(** The number that [collectInputData] stores for the text of a field. *)
Definition collected_value (text : string) : JS.number :=
  let value := Str.parseFloat text in
  if JS.isNaN value then JS.Fin 0 else value.

(** [collectInputData()] over the elements of [#inputForm], in document
    order. *)
Definition collectInputData (inputElements : list input_element) : object :=
  foldl
    (fun inputs input =>
       set_property input.(id) (collected_value input.(value)) inputs)
    [] inputElements.

(** [typeof value === 'number'] holds of every value of type [number]. *)
Definition validateInputs (data : object) : bool :=
  forallb (fun value => negb (JS.isNaN value) && JS.isFinite value)
    (Object_values data).

(** ** The summary *)

Record summary : Type := {
  overall_risk : JS.number;
  status : string;
  predictions : object;
  recommendation : list string
}.

Record risk_meter : Type := {
  meter_type : string;
  meter_risk : JS.number;
  meter_label : string
}.

(** What [displaySummary] writes: the icon class and the text of
    [#overallStatus], its [className], the risk meters and the list of
    recommendations. *)
Record summary_view : Type := {
  icon : string;
  statusText : string;
  className : string;
  riskMeters : list risk_meter;
  recommendationsList : list string
}.

Definition displaySummary (s : summary) : summary_view :=
  let icon :=
    if JS.ge s.(overall_risk) (JS.Fin 50) then "fa-exclamation-triangle"
    else "fa-check-circle" in
  let className := "status-healthy" in
  let className :=
    if JS.gt s.(overall_risk) (JS.Fin 50) then "status-warning" else className in
  let className :=
    if JS.gt s.(overall_risk) (JS.Fin 70) then "status-danger" else className in
  let meters :=
    map (fun '(type, risk) =>
           {| meter_type := type;
              meter_risk := risk;
              meter_label :=
                if JS.lt risk (JS.Fin 50) then "Low"
                else if JS.lt risk (JS.Fin 70) then "Medium" else "High" |})
      s.(predictions) in
  {| icon := icon;
     statusText := s.(status);
     className := className;
     riskMeters := meters;
     recommendationsList := s.(recommendation) |}.

(** ** The top contributions *)

(** The comparison function [(a, b) => b[1] - a[1]]. *)
Definition by_percentage_desc (a b : string * JS.number) : JS.number :=
  JS.sub b.2 a.2.

(** The constant [sortedContributions] of [displayTopContributions]. *)
Definition sortedContributions (contributions : object) : list (string * JS.number) :=
  Arr.slice0 5 (Arr.sort by_percentage_desc contributions).

(** The order of the ranking: the percentage of [a] is not smaller than
    that of [b]. *)
Definition ranked_before (a b : string * JS.number) : Prop :=
  JS.ge a.2 b.2 = true.

Definition not_NaN (e : string * JS.number) : Prop := JS.isNaN e.2 = false.

(** The entries whose percentage equals [p]. *)
Definition same_percentage (p : JS.number) (e : string * JS.number) : bool :=
  JS.eq p e.2.

(** The position of a feature name in a catalog. *)
Fixpoint catalog_index (catalog : list string) (name : string) : option nat :=
  match catalog with
  | [] => None
  | n :: catalog' =>
      if String.eqb n name then Some 0%nat
      else option_map S (catalog_index catalog' name)
  end.

Definition catalog_before (catalog : list string) (a b : string) : bool :=
  match catalog_index catalog a, catalog_index catalog b with
  | Some i, Some j => (i <? j)%nat
  | _, _ => false
  end.

(** Two entries respect a catalog: if their percentages are equal, the
    first one comes first in the catalog. *)
Definition tie_ordered (catalog : list string) (a b : string * JS.number) : Prop :=
  negb (JS.eq a.2 b.2) || catalog_before catalog a.1 b.1 = true.

(** Entries with equal percentages stand in the order of the catalog. *)
Fixpoint ties_in_catalog_order (catalog : list string)
    (l : list (string * JS.number)) : bool :=
  match l with
  | [] => true
  | a :: l' =>
      forallb (fun b => negb (JS.eq a.2 b.2) || catalog_before catalog a.1 b.1) l'
      && ties_in_catalog_order catalog l'
  end.

Record contribution_item : Type := {
  formattedFeature : string;
  percentage : JS.number;
  barWidth : JS.number;
  barColor : string
}.

(** What [displayTopContributions] writes into the container: the
    placeholder item "No data available" with value 0% and an empty bar, or
    one item per ranked contribution. *)
Inductive contributions_view : Type :=
| NoDataAvailable
| ContributionItems (items : list contribution_item).

(** [contributions] is [None] when the model result has no such property. *)
Definition displayTopContributions (contributions : option object) : contributions_view :=
  match contributions with
  | None => NoDataAvailable
  | Some contributions =>
      if (length (Object_keys contributions) =? 0)%nat then NoDataAvailable
      else
        ContributionItems
          (map (fun '(feature, percentage) =>
                  let barColor := "#3498db" in
                  let barColor :=
                    if JS.gt percentage (JS.Fin 30) then "#f39c12" else barColor in
                  let barColor :=
                    if JS.gt percentage (JS.Fin 60) then "#e74c3c" else barColor in
                  {| formattedFeature := formatLabel feature;
                     percentage := percentage;
                     barWidth := JS.Math_min percentage (JS.Fin 100);
                     barColor := barColor |})
             (sortedContributions contributions))
  end.

(** ** The radar charts *)

Record chart : Type := { labels : list string; data : list JS.number }.

Definition chartIds : list string :=
  ["wearoutRadar"; "thermalRadar"; "powerRadar"; "controllerRadar"].

Definition modelTypes : list string :=
  ["wearout"; "thermal"; "power"; "controller"].

(** The data that [initializeRadarCharts] and [resetForm] give a chart:
    every default value normalized with index 0. *)
Definition default_data (featureDefaults : object) : list JS.number :=
  map (fun v => normalizeFeatureValue featureDefaults v 0)
    (Object_values featureDefaults).

(** The body of the loop of [initializeRadarCharts]: a chart is made when
    the canvas [id] exists in the document. *)
Definition init_step (featureDefaults : object) (canvas : string -> bool)
    (radarCharts : gmap string chart) (id : string) : gmap string chart :=
  if canvas id then
    <[ id := {| labels := map formatLabel (Object_keys featureDefaults);
                data := default_data featureDefaults |} ]> radarCharts
  else radarCharts.

(** [initializeRadarCharts()]. *)
Definition initializeRadarCharts (canvas : string -> bool)
    (featureDefaults : object) (radarCharts : gmap string chart) : gmap string chart :=
  foldl (init_step featureDefaults canvas) radarCharts chartIds.

(** [updateRadarChart(type, inputData)]. *)
Definition updateRadarChart (featureDefaults : object) (type : string)
    (inputData : object) (radarCharts : gmap string chart) : gmap string chart :=
  let chartId := String.append type "Radar" in
  match radarCharts !! chartId with
  | None => radarCharts
  | Some c =>
      let normalizedValues :=
        imap (fun index value => normalizeFeatureValue featureDefaults value index)
          (Object_values inputData) in
      <[ chartId := {| labels := c.(labels); data := normalizedValues |} ]> radarCharts
  end.

(** The body of the loop of [resetForm], for the radar chart of one model
    type. *)
Definition reset_step (featureDefaults : object)
    (radarCharts : gmap string chart) (type : string) : gmap string chart :=
  let chartId := String.append type "Radar" in
  match radarCharts !! chartId with
  | None => radarCharts
  | Some c =>
      <[ chartId := {| labels := c.(labels);
                       data := default_data featureDefaults |} ]> radarCharts
  end.

(** The part of [resetForm()] that resets the radar charts. *)
Definition resetForm (featureDefaults : object)
    (radarCharts : gmap string chart) : gmap string chart :=
  foldl (reset_step featureDefaults) radarCharts modelTypes.

(** ** A prediction request *)

(** The result of one model; [None] is a property that the response does
    not have. *)
Record model_result : Type := {
  risk_percentage : option JS.number;
  contributions : option object
}.

(** What [displayPrediction] and [updateSpeedMeter] show of the risk of one
    model: the percentage, the width of the linear meter and the colour of
    the value of the speed meter. *)
Record risk_indicator : Type := {
  riskPercentage : JS.number;
  meterWidth : JS.number;
  meterColor : string
}.

Record results : Type := {
  results_summary : summary;
  wearout : model_result;
  thermal : model_result;
  power : model_result;
  controller : model_result
}.

(** What the page shows after [displayResults]. *)
Record display : Type := {
  shown_summary : summary_view;
  shown_risks : list (string * risk_indicator);
  shown_contributions : list (string * contributions_view);
  shown_charts : gmap string chart
}.

(** [displayPrediction(type, data, inputData)]: the risk indicators, the
    radar chart and the top contributions of one model. *)
Definition displayPrediction (featureDefaults : object) (type : string)
    (data : model_result) (inputData : object) (d : display) : display :=
  let riskPercentage := or_default data.(risk_percentage) (JS.Fin 0) in
  let color :=
    if JS.lt riskPercentage (JS.Fin 30) then "#27ae60"
    else if JS.lt riskPercentage (JS.Fin 70) then "#f39c12"
    else "#e74c3c" in
  {| shown_summary := d.(shown_summary);
     shown_risks :=
       d.(shown_risks) ++
       [(type, {| riskPercentage := riskPercentage;
                  meterWidth := JS.Math_min riskPercentage (JS.Fin 100);
                  meterColor := color |})];
     shown_contributions :=
       d.(shown_contributions) ++ [(type, displayTopContributions data.(contributions))];
     shown_charts := updateRadarChart featureDefaults type inputData d.(shown_charts) |}.

Definition displayResults (featureDefaults : object) (radarCharts : gmap string chart)
    (r : results) (inputData : object) : display :=
  let d := {| shown_summary := displaySummary r.(results_summary);
              shown_risks := [];
              shown_contributions := [];
              shown_charts := radarCharts |} in
  let d := displayPrediction featureDefaults "wearout" r.(wearout) inputData d in
  let d := displayPrediction featureDefaults "thermal" r.(thermal) inputData d in
  let d := displayPrediction featureDefaults "power" r.(power) inputData d in
  let d := displayPrediction featureDefaults "controller" r.(controller) inputData d in
  d.


(** The body of the request: [{...inputData, ...(window.tempThreshold &&
    { temp_threshold: window.tempThreshold })}]. *)
Definition payload (tempThreshold : option JS.number) (inputData : object) : object :=
  match tempThreshold with
  | Some t =>
      if JS.truthy t then set_property "temp_threshold" t inputData
      else inputData
  | None => inputData
  end.


(** ** The summary of the prediction service *)

(** Modelled from the spec: the aggregation of the four per-model risks into
    the summary's overall risk is done by the prediction service
    ([backend/app.py]), which is not among the sources; the front end reads
    [summary.overall_risk] as it is.  The spec: [overall_risk = max
    (risk_percentage across the four models)], in the model order wearout,
    thermal, power, controller. *)
Definition aggregate_overall_risk (wearout thermal power controller : Q) : Q :=
  Qmax (Qmax (Qmax wearout thermal) power) controller.

(** ** Further functions of the script *)

(** [a + b]. *)
Definition number_add (a b : JS.number) : JS.number :=
  match a, b with
  | JS.NaN, _ | _, JS.NaN => JS.NaN
  | JS.Fin x, JS.Fin y => JS.Fin (Qred (x + y))
  | JS.PosInf, JS.NegInf | JS.NegInf, JS.PosInf => JS.NaN
  | JS.PosInf, _ | _, JS.PosInf => JS.PosInf
  | JS.NegInf, _ | _, JS.NegInf => JS.NegInf
  end.

(** [o[k]]: the value of the property [k], [None] for [undefined]. *)
Fixpoint get_property (k : string) (o : object) : option JS.number :=
  match o with
  | [] => None
  | (k', v) :: o' => if String.eqb k' k then Some v else get_property k o'
  end.

(** What [updateSpeedMeter] writes: the text and the colour of the value
    and the rotation of the needle, in degrees. *)
Record speed_meter : Type := {
  meter_text : option string;
  needle_angle : JS.number;
  value_color : string
}.

(** [updateSpeedMeter(type, riskPercentage)]; [present] tells whether the
    needle and the value element of the type both exist.  The text is
    [None] where [toFixed] is. *)
Definition updateSpeedMeter (present : bool) (riskPercentage : JS.number)
    : option speed_meter :=
  if negb present then None
  else
    let minAngle := JS.Fin (-135) in
    let maxAngle := JS.Fin 135 in
    let angle :=
      number_add minAngle
        (JS.mul (JS.div riskPercentage (JS.Fin 100)) (JS.sub maxAngle minAngle)) in
    let color :=
      if JS.lt riskPercentage (JS.Fin 30) then "#27ae60"
      else if JS.lt riskPercentage (JS.Fin 70) then "#f39c12"
      else "#e74c3c" in
    Some {| meter_text :=
              option_map (fun t => String.append t "%") (Str.toFixed 1 riskPercentage);
            needle_angle := angle;
            value_color := color |}.

(** The data that [updateRadarChart] computes from the input data. *)
Definition normalized_values (featureDefaults inputData : object) : list JS.number :=
  imap (fun index value => normalizeFeatureValue featureDefaults value index)
    (Object_values inputData).

(** A chart with new data and the labels that it has. *)
Definition with_data (values : list JS.number) (c : chart) : chart :=
  {| labels := c.(labels); data := values |}.


(** A name made of letters, digits and underscores, without two
    underscores in a row; [after] tells whether an underscore stands just
    before. *)
Fixpoint plain_name_from (after : bool) (s : string) : bool :=
  match s with
  | EmptyString => true
  | String c s' =>
      if (Str.code c =? 95)%N then negb after && plain_name_from true s'
      else Str.is_word c && plain_name_from false s'
  end.

Definition plain_name (s : string) : bool := plain_name_from false s.

(** A text made of letters, digits and single spaces; [after] tells whether
    a space stands just before. *)
Fixpoint plain_label_from (after : bool) (s : string) : bool :=
  match s with
  | EmptyString => true
  | String c s' =>
      if (Str.code c =? 32)%N then negb after && plain_label_from true s'
      else Str.is_word c && negb (Str.code c =? 95)%N && plain_label_from false s'
  end.

(** The same function on every character. *)
Fixpoint string_map (g : ascii -> ascii) (s : string) : string :=
  match s with
  | EmptyString => EmptyString
  | String c s' => String (g c) (string_map g s')
  end.

Definition underscore_to_space (c : ascii) : ascii :=
  if (Str.code c =? 95)%N then " "%char else c.

Definition space_to_underscore (c : ascii) : ascii :=
  if (Str.code c =? 32)%N then "_"%char else c.

(** Every character of a string satisfies [p]. *)
Fixpoint string_forall (p : ascii -> bool) (s : string) : bool :=
  match s with
  | EmptyString => true
  | String c s' => p c && string_forall p s'
  end.

Definition not_underscore (c : ascii) : bool := negb (Str.code c =? 95)%N.

(** [classList.toggle(token, force)]. *)
Definition toggle (token : string) (force : bool) (classes : gset string)
    : gset string :=
  if force then classes ∪ {[ token ]} else classes ∖ {[ token ]}.

(** An element of the class [tab-btn]: its [dataset.tab], undefined without
    the attribute [data-tab], and the tokens of its class list. *)
Record tab_btn : Type := {
  dataset_tab : option string;
  btn_classList : gset string
}.

(** An element of the class [tab-pane]: its [id], the empty string without
    the attribute, and the tokens of its class list. *)
Record tab_pane : Type := {
  pane_id : string;
  pane_classList : gset string
}.

(** The elements that the two selections of [switchTab] give, in the order
    of the document; no element is taken to have both classes. *)
Record tab_page : Type := {
  tab_buttons : list tab_btn;
  tab_panes : list tab_pane
}.

(** [x === tabName] for an argument that is a string or undefined. *)
Definition strict_equal (x tabName : option string) : bool :=
  bool_decide (x = tabName).

Definition switch_btn (tabName : option string) (btn : tab_btn) : tab_btn :=
  {| dataset_tab := btn.(dataset_tab);
     btn_classList :=
       toggle "active" (strict_equal btn.(dataset_tab) tabName)
         btn.(btn_classList) |}.

Definition switch_pane (tabName : option string) (pane : tab_pane) : tab_pane :=
  {| pane_id := pane.(pane_id);
     pane_classList :=
       toggle "active" (strict_equal (Some pane.(pane_id)) tabName)
         pane.(pane_classList) |}.

(** [switchTab(tabName)]. *)
Definition switchTab (tabName : option string) (page : tab_page) : tab_page :=
  {| tab_buttons := map (switch_btn tabName) page.(tab_buttons);
     tab_panes := map (switch_pane tabName) page.(tab_panes) |}.

(** The panes that are shown: those with the token [active]. *)
Definition is_active (classes : gset string) : bool :=
  bool_decide ("active" ∈ classes).

Definition active_panes (page : tab_page) : list tab_pane :=
  List.filter (fun pane => is_active pane.(pane_classList)) page.(tab_panes).

(** ** Sample data *)

(** The object [sampleData] of [provideSampleData]: the ten features of the
    catalog, in its order, with realistic values. *)
Definition sampleData : object :=
  [("Power_On_Hours", JS.Fin 15000);
   ("Total_TBW_TB", JS.Fin 245.7);
   ("Total_TBR_TB", JS.Fin 198.3);
   ("Temperature_C", JS.Fin 47.5);
   ("Percent_Life_Used", JS.Fin 65.2);
   ("Media_Errors", JS.Fin 1);
   ("Unsafe_Shutdowns", JS.Fin 2);
   ("CRC_Errors", JS.Fin 0);
   ("Read_Error_Rate", JS.Fin 3.7);
   ("Write_Error_Rate", JS.Fin 2.4)].



(** * Properties *)

(** ** The built-in functions on examples *)

Example parseFloat_examples :
  Str.parseFloat "  -5.25e1 hours" = JS.Fin (-105 # 2) /\
  Str.parseFloat ".5" = JS.Fin (1 # 2) /\
  Str.parseFloat "12abc" = JS.Fin 12 /\
  Str.parseFloat "abc" = JS.NaN /\
  Str.parseFloat EmptyString = JS.NaN /\
  Str.parseFloat "Infinity" = JS.PosInf /\
  Str.parseFloat "-Infinity" = JS.NegInf.
Proof. repeat split; vm_compute; reflexivity. Qed.

Example toFixed_examples :
  Str.toFixed 2 (JS.Fin 47.5) = Some "47.50" /\
  Str.toFixed 2 (JS.Fin 0.005) = Some "0.01" /\
  Str.toFixed 2 (JS.Fin (-0.001)) = Some "-0.00" /\
  Str.toFixed 1 (JS.Fin 12.34) = Some "12.3" /\
  Str.toFixed 0 (JS.Fin 2.5) = Some "3" /\
  Str.toFixed 2 JS.NaN = Some "NaN".
Proof. repeat split; vm_compute; reflexivity. Qed.

Example formatLabel_examples :
  formatLabel "Power_On_Hours" = "Power On Hours" /\
  formatLabel "Total_TBW_TB" = "Total TBW TB" /\
  formatLabel "total_tb_written" = "Total TB Written" /\
  formatLabel "Temperature_C" =
    String.append "Temperature (" (String Str.degree_sign "C)") /\
  formatLabel "CRC_Errors" = "CRC Errors".
Proof. repeat split; vm_compute; reflexivity. Qed.

Example featureName_of_label_examples :
  featureName_of_label
    (String.append "Temperature   (" (String Str.degree_sign "C)"))
  = "temperature_c" /\
  featureName_of_label "Total  TBW TB" = "total_tbw_tb".
Proof. repeat split; vm_compute; reflexivity. Qed.

(** Outside the ten names of the tables the two directions can use
    different maxima: for a feature called [power_on_hours] the
    normalization finds no entry and uses 100, the inverse finds 60000. *)
Example tables_differ_outside_catalog :
  normalizeFeatureValue [("power_on_hours", JS.Fin 1)] (JS.Fin 50) 0 = JS.Fin 50 /\
  getOriginalValueFromNormalized (JS.Fin 50) (formatLabel "power_on_hours")
  = Some "30000.00".
Proof. split; vm_compute; reflexivity. Qed.

(** ** Numbers *)

Section NumberFacts.
Import JS.

Lemma Qlt_bool_iff (x y : Q) : Qlt_bool x y = true <-> x < y.
Proof.
  unfold Qlt_bool. rewrite negb_true_iff, <- not_true_iff_false, Qle_bool_iff.
  split; [apply Qnot_le_lt | apply Qlt_not_le].
Qed.

Lemma Qlt_bool_false (x y : Q) : Qlt_bool x y = false <-> y <= x.
Proof.
  unfold Qlt_bool. rewrite negb_false_iff. apply Qle_bool_iff.
Qed.

Lemma Qle_bool_false (x y : Q) : Qle_bool x y = false <-> y < x.
Proof.
  rewrite <- not_true_iff_false, Qle_bool_iff.
  split; [apply Qnot_le_lt | apply Qlt_not_le].
Qed.

Lemma gt_Fin (x y : Q) : gt (Fin x) (Fin y) = true <-> y < x.
Proof. apply Qlt_bool_iff. Qed.

Lemma gt_Fin_false (x y : Q) : gt (Fin x) (Fin y) = false <-> x <= y.
Proof. apply Qlt_bool_false. Qed.

Lemma ge_Fin (x y : Q) : ge (Fin x) (Fin y) = true <-> y <= x.
Proof. apply Qle_bool_iff. Qed.

Lemma ge_Fin_false (x y : Q) : ge (Fin x) (Fin y) = false <-> x < y.
Proof. apply Qle_bool_false. Qed.



End NumberFacts.

(** ** The summary: status class and icon *)

Section Summary.
Import JS.

Lemma className_danger (s : summary) :
  gt (overall_risk s) (Fin 70) = true ->
  className (displaySummary s) = "status-danger".
Proof. intros H. unfold displaySummary. cbn [className]. rewrite H. reflexivity. Qed.

Lemma className_warning (s : summary) :
  gt (overall_risk s) (Fin 70) = false ->
  gt (overall_risk s) (Fin 50) = true ->
  className (displaySummary s) = "status-warning".
Proof.
  intros H70 H50. unfold displaySummary. cbn [className].
  rewrite H70, H50. reflexivity.
Qed.

Lemma className_healthy (s : summary) :
  gt (overall_risk s) (Fin 50) = false ->
  gt (overall_risk s) (Fin 70) = false ->
  className (displaySummary s) = "status-healthy".
Proof.
  intros H50 H70. unfold displaySummary. cbn [className].
  rewrite H70, H50. reflexivity.
Qed.

Lemma icon_by_threshold (s : summary) :
  icon (displaySummary s) =
    if ge (overall_risk s) (Fin 50) then "fa-exclamation-triangle"
    else "fa-check-circle".
Proof. reflexivity. Qed.
End Summary.

(** C1, as the code has it: a finite overall risk above 70 gets the class
    of Danger, one above 50 and at most 70 the class of Warning, and any
    other the class of Healthy; so 49.9 and 50 are Healthy, 70 is Warning
    and 70.1 is Danger. *)
Theorem status_class_banding (s : summary) (r : Q) :
  overall_risk s = JS.Fin r ->
  let c := className (displaySummary s) in
  (70 < r -> c = "status-danger") /\
  (50 < r /\ r <= 70 -> c = "status-warning") /\
  (r <= 50 -> c = "status-healthy") /\
  (r == 49.9 -> c = "status-healthy") /\
  (r == 50 -> c = "status-healthy") /\
  (r == 70 -> c = "status-warning") /\
  (r == 70.1 -> c = "status-danger").
Proof.
  intros Hr c.
  assert (Hd : 70 < r -> c = "status-danger").
  { intros H. apply className_danger. rewrite Hr. apply gt_Fin, H. }
  assert (Hw : 50 < r /\ r <= 70 -> c = "status-warning").
  { intros [H1 H2]. apply className_warning; rewrite Hr.
    - apply gt_Fin_false, H2.
    - apply gt_Fin, H1. }
  assert (Hh : r <= 50 -> c = "status-healthy").
  { intros H. apply className_healthy; rewrite Hr; apply gt_Fin_false; lra. }
  repeat split; trivial; intros H.
  - apply Hh. lra.
  - apply Hh. lra.
  - apply Hw. lra.
  - apply Hd. lra.
Qed.

(** The claim C1 fails at its boundary value 50.0, which is Healthy, not
    Warning. *)
Lemma status_class_50_not_warning :
  className (displaySummary
    {| overall_risk := JS.Fin 50; status := "Warning";
       predictions := []; recommendation := [] |}) = "status-healthy" /\
  className (displaySummary
    {| overall_risk := JS.Fin 50; status := "Warning";
       predictions := []; recommendation := [] |}) <> "status-warning".
Proof. split; [reflexivity | discriminate]. Qed.

(** The banding at the four boundary values of C1 and inside two bands. *)
Lemma status_class_banding_witness :
  let s r := {| overall_risk := JS.Fin r; status := EmptyString;
                predictions := []; recommendation := [] |} in
  className (displaySummary (s 49.9)) = "status-healthy" /\
  className (displaySummary (s 50)) = "status-healthy" /\
  className (displaySummary (s 70)) = "status-warning" /\
  className (displaySummary (s 70.1)) = "status-danger" /\
  className (displaySummary (s 85)) = "status-danger" /\
  className (displaySummary (s 60)) = "status-warning".
Proof.
  intros s.
  pose proof (status_class_banding (s 49.9) 49.9 eq_refl) as (_ & _ & _ & H1 & _).
  pose proof (status_class_banding (s 50) 50 eq_refl) as (_ & _ & _ & _ & H2 & _).
  pose proof (status_class_banding (s 70) 70 eq_refl) as (_ & _ & _ & _ & _ & H3 & _).
  pose proof (status_class_banding (s 70.1) 70.1 eq_refl) as (_ & _ & _ & _ & _ & _ & H4).
  pose proof (status_class_banding (s 85) 85 eq_refl) as (H5 & _).
  pose proof (status_class_banding (s 60) 60 eq_refl) as (_ & H6 & _).
  split; [apply H1; reflexivity |].
  split; [apply H2; reflexivity |].
  split; [apply H3; reflexivity |].
  split; [apply H4; reflexivity |].
  split; [apply H5; reflexivity |].
  apply H6. split; [reflexivity | discriminate].
Defined.

(** C7: the icon of the summary depends on the overall risk alone, through
    the threshold 50: the check mark below 50, the warning triangle from 50
    on, whatever the status text and the status class are. *)
Theorem status_icon_threshold (s : summary) (r : Q) :
  overall_risk s = JS.Fin r ->
  (r < 50 -> icon (displaySummary s) = "fa-check-circle") /\
  (50 <= r -> icon (displaySummary s) = "fa-exclamation-triangle") /\
  (forall s' : summary,
     overall_risk s' = overall_risk s ->
     icon (displaySummary s') = icon (displaySummary s)).
Proof.
  intros Hr. split; [| split].
  - intros H. apply ge_Fin_false in H.
    rewrite icon_by_threshold, Hr, H. reflexivity.
  - intros H. apply ge_Fin in H.
    rewrite icon_by_threshold, Hr, H. reflexivity.
  - intros s' Hs'. rewrite !icon_by_threshold, Hs'. reflexivity.
Qed.

(** At 49.9 the check mark, at 50 the triangle, with a class of Healthy. *)
Lemma status_icon_threshold_witness :
  let s r txt := {| overall_risk := JS.Fin r; status := txt;
                    predictions := []; recommendation := [] |} in
  icon (displaySummary (s 49.9 "Danger")) = "fa-check-circle" /\
  icon (displaySummary (s 50 "Healthy")) = "fa-exclamation-triangle" /\
  className (displaySummary (s 50 "Healthy")) = "status-healthy" /\
  icon (displaySummary (s 50 "Healthy")) = icon (displaySummary (s 50 "Warning")).
Proof.
  intros s.
  pose proof (status_icon_threshold (s 49.9 "Danger") 49.9 eq_refl) as (H1 & _).
  pose proof (status_icon_threshold (s 50 "Warning") 50 eq_refl) as (_ & _ & H3).
  pose proof (status_icon_threshold (s 50 "Healthy") 50 eq_refl) as (_ & H2 & _).
  split; [apply H1; reflexivity |].
  split; [apply H2; discriminate |].
  split; [reflexivity |].
  apply H3. reflexivity.
Defined.

(** ** The overall risk *)

(** C6: the overall risk is the maximum of the four per-model risks: it is
    one of them and none of them exceeds it, so it is not their average; for
    the risks 20, 72, 10, 30 it is 72, not 33. *)
Theorem overall_risk_is_maximum (wearout thermal power controller : Q) :
  let m := aggregate_overall_risk wearout thermal power controller in
  (wearout <= m /\ thermal <= m /\ power <= m /\ controller <= m) /\
  (m == wearout \/ m == thermal \/ m == power \/ m == controller) /\
  aggregate_overall_risk 20 72 10 30 == 72 /\
  ~ aggregate_overall_risk 20 72 10 30 == (20 + 72 + 10 + 30) / 4.
Proof.
  unfold aggregate_overall_risk. cbv zeta.
  set (a := Qmax wearout thermal). set (b := Qmax a power).
  pose proof (Q.le_max_l wearout thermal) as Hw.
  pose proof (Q.le_max_r wearout thermal) as Ht.
  pose proof (Q.le_max_l a power) as Ha.
  pose proof (Q.le_max_r a power) as Hp.
  pose proof (Q.le_max_l b controller) as Hb.
  pose proof (Q.le_max_r b controller) as Hc.
  fold a in Hw, Ht. fold b in Ha, Hp.
  split; [| split; [| split]].
  - repeat split; trivial.
    + apply Qle_trans with a; [exact Hw |]. apply Qle_trans with b; trivial.
    + apply Qle_trans with a; [exact Ht |]. apply Qle_trans with b; trivial.
    + apply Qle_trans with b; trivial.
  - destruct (Q.max_dec b controller) as [E | E]; [| auto].
    destruct (Q.max_dec a power) as [E' | E'].
    + destruct (Q.max_dec wearout thermal) as [E'' | E''].
      * left. rewrite E. unfold b. rewrite E'. exact E''.
      * right; left. rewrite E. unfold b. rewrite E'. exact E''.
    + right; right; left. rewrite E. exact E'.
  - reflexivity.
  - discriminate.
Qed.

(** ** Empty contributions *)

(** C8: for absent or empty contributions, and for no others,
    [displayTopContributions] writes the placeholder "No data available"; it
    is a total function, so it produces a view for every input. *)
Theorem empty_contributions_placeholder :
  displayTopContributions None = NoDataAvailable /\
  displayTopContributions (Some []) = NoDataAvailable /\
  (forall c : option object,
     displayTopContributions c = NoDataAvailable <-> c = None \/ c = Some []).
Proof.
  split; [reflexivity |]. split; [reflexivity |].
  intros [[| e c] |]; simpl.
  - split; auto.
  - split; [discriminate |]. intros [H | H]; discriminate.
  - split; auto.
Qed.

(** ** The scale tables *)

Section Tables.
Import JS.

(** A property read from a table written as a list of entries is one of
    the entries. *)
Ltac table_cases H :=
  apply elem_of_list_to_map_2 in H;
  repeat (apply elem_of_cons in H as [H | H]; [injection H as -> -> |]);
  [.. | apply elem_of_nil in H; contradiction].

(** Every maximum of the table is a positive integer, at most 60000; the
    label of its feature leads back to the lower-case key, which holds the
    same maximum in the table of the inverse. *)
Lemma maxValues_entry (f : string) (x : number) :
  maxValues !! f = Some x ->
  exists z : Z,
    x = Fin (inject_Z z) /\ (0 < z <= 60000)%Z /\
    featureName_of_label (formatLabel f) = Str.toLowerCase f /\
    maxValues_lower !! featureName_of_label (formatLabel f) = Some x.
Proof.
  intros H. table_cases H.
  all: eexists; split; [reflexivity |]; split; [lia |];
    split; vm_compute; reflexivity.
Qed.




End Tables.

(** ** Normalization *)

Section Normalization.
Import JS.

Variable featureDefaults : object.












End Normalization.



(** ** The round trip through the normalized scale *)

Section RoundTrip.
Import JS.





End RoundTrip.

Section RoundTripOfFeature.
Import JS.

(** A feature at [index] for which both directions use the maximum [z]. *)
Variables (featureDefaults : object) (index : nat) (f : string) (z : Z).
Hypothesis Hz : (0 < z <= 60000)%Z.
Hypothesis Hnorm :
  or_default (maxValues !! property_key (Object_keys featureDefaults !! index))
    (Fin 100) = Fin (inject_Z z).
Hypothesis Hlabel :
  or_default (maxValues_lower !! featureName_of_label (formatLabel f)) (Fin 100)
  = Fin (inject_Z z).




End RoundTripOfFeature.



(** ** From a label back to a key *)

Section LabelKeys.

Lemma prefix_drop (p s : string) :
  String.prefix p s = true -> String.append p (Str.drop (String.length p) s) = s.
Proof.
  revert s. induction p as [| a p IH]; intros s H; [reflexivity |].
  destruct s as [| b s]; [discriminate |]. simpl in H.
  destruct (Ascii.ascii_dec a b) as [-> | ]; [| discriminate].
  change (String b (String.append p (Str.drop (String.length p) s)) = String b s).
  f_equal. apply IH, H.
Qed.

(** Replacing a text by itself changes nothing. *)
Lemma replace_1_same (p : string) (prev : option ascii) (s : string) :
  Str.replace_1 (Str.literal p p) prev s = s.
Proof.
  revert prev. induction s as [| c s IH]; intros prev; [reflexivity |].
  cbn [Str.replace_1]. unfold Str.literal at 1.
  destruct (String.prefix p (String c s)) eqn:E.
  - apply prefix_drop, E.
  - rewrite IH. reflexivity.
Qed.

Lemma toLowerCase_char_key (c : ascii) :
  Str.is_whitespace c = false ->
  Str.is_whitespace (Str.toLowerCase_char c) = false /\
  Str.toLowerCase_char (Str.toLowerCase_char c) = Str.toLowerCase_char c.
Proof.
  destruct c as [[] [] [] [] [] [] [] []]; intros H;
    solve [discriminate H | split; reflexivity].
Qed.

Lemma toLowerCase_key (s : string) :
  forallb (fun c => negb (Str.is_whitespace c)) (list_ascii_of_string s) = true ->
  lowercase_key (Str.toLowerCase s) = true.
Proof.
  induction s as [| c s IH]; intros H; [reflexivity |].
  simpl in H. apply andb_prop in H as [Hc Hs].
  apply negb_true_iff in Hc.
  destruct (toLowerCase_char_key c Hc) as [H1 H2].
  simpl. rewrite H1, H2, Ascii.eqb_refl, IH by exact Hs. reflexivity.
Qed.

Lemma trim_start_length (s : string) :
  (String.length (Str.trim_start s) <= String.length s)%nat.
Proof.
  induction s as [| c s IH]; simpl; [lia |].
  destruct (Str.is_whitespace c); simpl; lia.
Qed.

(** After [/\s+/g] is replaced no white space is left. *)
Lemma replace_spaces_no_whitespace (prev : option ascii) (skip : nat) (s : string) :
  forallb (fun c => negb (Str.is_whitespace c))
    (list_ascii_of_string (Str.replace_g re_spaces prev skip s)) = true.
Proof.
  revert prev skip. induction s as [| c s IH]; intros prev skip; [reflexivity |].
  cbn [Str.replace_g]. destruct skip as [| k]; [| apply IH].
  unfold re_spaces at 1. cbn [Str.trim_start].
  destruct (Str.is_whitespace c) eqn:Ec.
  - destruct (String.length (String c s) - String.length (Str.trim_start s))%nat
      as [| n] eqn:En.
    + pose proof (trim_start_length s). simpl in En. lia.
    + simpl. apply IH.
  - rewrite Nat.sub_diag. simpl. rewrite Ec. apply IH.
Qed.

Lemma featureName_of_label_key (label : string) :
  lowercase_key (featureName_of_label label) = true.
Proof.
  unfold featureName_of_label. cbv zeta. rewrite !replace_1_same.
  apply toLowerCase_key, replace_spaces_no_whitespace.
Qed.

End LabelKeys.

(** C9: for every feature name of the scale table, the key that the inverse
    derives from its formatted label is the name in lower case, and holds
    the same maximum in the table of the inverse; this covers the ten names
    of the catalog.  Whatever the label, the derived key is in the lower-case
    form without white space: two names that the abbreviation correction
    merges into one label, as [Total_Tb] and [Total_TB], get the lower-case
    key of both. *)
Theorem label_round_trip_selects_max (f : string) (m : JS.number) :
  maxValues !! f = Some m ->
  featureName_of_label (formatLabel f) = Str.toLowerCase f /\
  maxValues_lower !! featureName_of_label (formatLabel f) = Some m /\
  Forall (fun name => is_Some (maxValues !! name)) (Object_keys sampleData) /\
  (forall label : string, lowercase_key (featureName_of_label label) = true) /\
  (formatLabel "Total_Tb" = formatLabel "Total_TB" /\
   featureName_of_label (formatLabel "Total_Tb") = "total_tb").
Proof.
  intros H. destruct (maxValues_entry f m H) as (z & _ & _ & Hkey & Hlow).
  split; [exact Hkey |]. split; [exact Hlow |].
  split; [| split; [apply featureName_of_label_key |]].
  - repeat constructor; vm_compute; eexists; reflexivity.
  - split; vm_compute; reflexivity.
Qed.

(** The label of the temperature leads back to its key and maximum. *)
Lemma label_round_trip_selects_max_witness :
  featureName_of_label (formatLabel "Temperature_C") = "temperature_c" /\
  maxValues_lower !! featureName_of_label (formatLabel "Temperature_C")
  = Some (JS.Fin 90).
Proof.
  assert (Hmax : maxValues !! "Temperature_C" = Some (JS.Fin 90))
    by (vm_compute; reflexivity).
  pose proof (label_round_trip_selects_max "Temperature_C" (JS.Fin 90) Hmax)
    as (H1 & H2 & _).
  split; [rewrite H1; reflexivity | exact H2].
Defined.

(** ** The data of the radar charts *)

Section RadarCharts.
Import JS.

Variable featureDefaults : object.

Lemma init_step_keeps canvas charts id k c :
  charts !! k = Some c -> data c = default_data featureDefaults ->
  exists c', init_step featureDefaults canvas charts id !! k = Some c' /\
             data c' = default_data featureDefaults.
Proof.
  intros Hk Hd. unfold init_step. destruct (canvas id); [| eauto].
  destruct (decide (id = k)) as [-> | Hne].
  - rewrite lookup_insert_eq. eauto.
  - rewrite lookup_insert_ne by exact Hne. eauto.
Qed.

Lemma init_fold_keeps canvas ids charts k c :
  charts !! k = Some c -> data c = default_data featureDefaults ->
  exists c', foldl (init_step featureDefaults canvas) charts ids !! k = Some c' /\
             data c' = default_data featureDefaults.
Proof.
  revert charts c. induction ids as [| id ids IH]; intros charts c Hk Hd; [eauto |].
  destruct (init_step_keeps canvas charts id k c Hk Hd) as (c' & Hk' & Hd').
  simpl. eapply IH; eassumption.
Qed.

Lemma init_fold_sets canvas ids charts id :
  id ∈ ids -> canvas id = true ->
  exists c, foldl (init_step featureDefaults canvas) charts ids !! id = Some c /\
            data c = default_data featureDefaults.
Proof.
  revert charts. induction ids as [| k ids IH]; intros charts Hin Hc.
  - apply elem_of_nil in Hin. contradiction.
  - simpl. destruct (decide (id = k)) as [-> | Hne].
    + apply init_fold_keeps
        with (c := {| labels := map formatLabel (Object_keys featureDefaults);
                      data := default_data featureDefaults |}); [| reflexivity].
      unfold init_step. rewrite Hc. apply lookup_insert_eq.
    + apply IH; [| exact Hc].
      apply elem_of_cons in Hin as [? | ?]; [contradiction | assumption].
Qed.

Lemma reset_step_keeps charts type k c :
  charts !! k = Some c ->
  exists c', reset_step featureDefaults charts type !! k = Some c' /\
             labels c' = labels c /\
             (data c = default_data featureDefaults ->
              data c' = default_data featureDefaults).
Proof.
  intros Hk. unfold reset_step. cbv zeta.
  destruct (charts !! String.append type "Radar") as [c0 |] eqn:E; [| eauto].
  destruct (decide (String.append type "Radar" = k)) as [Heq | Hne].
  - rewrite Heq in *. rewrite lookup_insert_eq.
    assert (c0 = c) as -> by congruence. eauto.
  - rewrite lookup_insert_ne by exact Hne. eauto.
Qed.

Lemma reset_fold_keeps types charts k c :
  charts !! k = Some c ->
  exists c', foldl (reset_step featureDefaults) charts types !! k = Some c' /\
             labels c' = labels c /\
             (data c = default_data featureDefaults ->
              data c' = default_data featureDefaults).
Proof.
  revert charts c. induction types as [| t types IH]; intros charts c Hk; [eauto |].
  destruct (reset_step_keeps charts t k c Hk) as (c1 & Hk1 & Hl1 & Hd1).
  destruct (IH _ _ Hk1) as (c2 & Hk2 & Hl2 & Hd2).
  simpl. exists c2. split; [exact Hk2 |]. split; [congruence | auto].
Qed.

Lemma reset_fold_sets types charts type c :
  type ∈ types -> charts !! String.append type "Radar" = Some c ->
  exists c',
    foldl (reset_step featureDefaults) charts types !! String.append type "Radar"
    = Some c' /\
             labels c' = labels c /\ data c' = default_data featureDefaults.
Proof.
  revert charts c. induction types as [| t types IH]; intros charts c Hin Hk.
  - apply elem_of_nil in Hin. contradiction.
  - simpl. destruct (decide (type = t)) as [<- | Hne].
    + assert (Hs : reset_step featureDefaults charts type !! String.append type "Radar"
                   = Some {| labels := labels c; data := default_data featureDefaults |}).
      { unfold reset_step. cbv zeta. rewrite Hk. apply lookup_insert_eq. }
      destruct (reset_fold_keeps types _ _ _ Hs) as (c' & Hk' & Hl' & Hd').
      exists c'. split; [exact Hk' |]. split; [exact Hl' | apply Hd'; reflexivity].
    + apply elem_of_cons in Hin as [? | Hin]; [contradiction |].
      destruct (reset_step_keeps charts t _ c Hk) as (c1 & Hk1 & Hl1 & _).
      destruct (IH _ _ Hin Hk1) as (c' & Hk' & Hl' & Hd').
      exists c'. split; [exact Hk' |]. split; [congruence | exact Hd'].
Qed.

(** With [Power_On_Hours] first, index 0 means the maximum 60000. *)
Lemma default_data_by_first :
  Object_keys featureDefaults !! 0%nat = Some "Power_On_Hours" ->
  default_data featureDefaults =
    map (fun v => Math_min (mul (div v (Fin 60000)) (Fin 100)) (Fin 100))
      (Object_values featureDefaults).
Proof.
  intros H. unfold default_data, normalizeFeatureValue. cbv zeta.
  rewrite H. reflexivity.
Qed.

End RadarCharts.

(** C10: when [Power_On_Hours] is the first feature, the charts made by
    [initializeRadarCharts] and the charts reset by [resetForm] hold every
    default value scaled against 60000, the maximum of that first feature,
    whatever the feature of the value is; [updateRadarChart] scales the value
    at each position against the maximum of the feature at that position. *)
Theorem default_values_scaled_by_first_feature (canvas : string -> bool)
    (featureDefaults : object) (radarCharts : gmap string chart) :
  Object_keys featureDefaults !! 0%nat = Some "Power_On_Hours" ->
  let by_first :=
    map (fun v => JS.Math_min (JS.mul (JS.div v (JS.Fin 60000)) (JS.Fin 100))
                    (JS.Fin 100))
      (Object_values featureDefaults) in
  (forall id : string,
     id ∈ chartIds -> canvas id = true ->
     data <$> initializeRadarCharts canvas featureDefaults radarCharts !! id
     = Some by_first) /\
  (forall (type : string) (c : chart),
     type ∈ modelTypes ->
     radarCharts !! String.append type "Radar" = Some c ->
     data <$> resetForm featureDefaults radarCharts !! String.append type "Radar"
     = Some by_first) /\
  (forall (type : string) (c : chart) (inputData : object) (i : nat) (v : JS.number),
     radarCharts !! String.append type "Radar" = Some c ->
     Object_values inputData !! i = Some v ->
     exists c' : chart,
       updateRadarChart featureDefaults type inputData radarCharts
         !! String.append type "Radar" = Some c' /\
       data c' !! i =
         Some (JS.Math_min
                 (JS.mul
                    (JS.div v
                       (or_default
                          (maxValues !! property_key (Object_keys featureDefaults !! i))
                          (JS.Fin 100)))
                    (JS.Fin 100))
                 (JS.Fin 100))).
Proof.
  intros Hfirst by_first.
  pose proof (default_data_by_first featureDefaults Hfirst) as Hd.
  fold by_first in Hd. split; [| split].
  - intros id Hin Hc.
    destruct (init_fold_sets featureDefaults canvas chartIds radarCharts id Hin Hc)
      as (c & Hk & Hdata).
    unfold initializeRadarCharts. rewrite Hk. simpl. congruence.
  - intros type c Hin Hk.
    destruct (reset_fold_sets featureDefaults modelTypes radarCharts type c Hin Hk)
      as (c' & Hk' & _ & Hdata).
    unfold resetForm. rewrite Hk'. simpl. congruence.
  - intros type c inputData i v Hk Hv.
    unfold updateRadarChart. cbv zeta. rewrite Hk. rewrite lookup_insert_eq.
    eexists. split; [reflexivity |].
    cbn [data]. rewrite list_lookup_imap, Hv. reflexivity.
Qed.

(** With the sample data as defaults, a new or reset chart holds the
    temperature 47.5 as 19/240 (against 60000); after a prediction with the
    same values it holds 475/9 (against 90). *)
Lemma default_values_scaled_by_first_feature_witness :
  let charts := initializeRadarCharts (fun _ => true) sampleData ∅ in
  data <$> charts !! "thermalRadar" =
    Some [JS.Fin 25; JS.Fin (819 # 2000); JS.Fin (661 # 2000); JS.Fin (19 # 240);
          JS.Fin (163 # 1500); JS.Fin (1 # 600); JS.Fin (1 # 300); JS.Fin 0;
          JS.Fin (37 # 6000); JS.Fin (1 # 250)] /\
  data <$> resetForm sampleData charts !! "thermalRadar"
  = data <$> charts !! "thermalRadar" /\
  data <$> updateRadarChart sampleData "thermal" sampleData charts !! "thermalRadar" =
    Some [JS.Fin 25; JS.Fin (2457 # 100); JS.Fin (1983 # 80); JS.Fin (475 # 9);
          JS.Fin (652 # 15); JS.Fin 10; JS.Fin 20; JS.Fin 0;
          JS.Fin (37 # 2); JS.Fin 16].
Proof.
  intros charts.
  pose proof (default_values_scaled_by_first_feature (fun _ => true) sampleData ∅
                eq_refl) as (H1 & _).
  pose proof (default_values_scaled_by_first_feature (fun _ => true) sampleData
                charts eq_refl) as (_ & H2 & _).
  assert (Hin : "thermalRadar" ∈ chartIds)
    by (apply elem_of_cons; right; apply elem_of_cons; left; reflexivity).
  assert (Hin' : "thermal" ∈ modelTypes)
    by (apply elem_of_cons; right; apply elem_of_cons; left; reflexivity).
  specialize (H1 "thermalRadar" Hin eq_refl).
  split; [| split].
  - unfold charts. rewrite H1. vm_compute. reflexivity.
  - assert (Hc : is_Some (charts !! "thermalRadar")).
    { unfold charts. destruct (_ !! "thermalRadar"); [eauto | discriminate H1]. }
    destruct Hc as [c Hc].
    change "thermalRadar" with (String.append "thermal" "Radar") at 1.
    rewrite (H2 "thermal" c Hin' Hc). unfold charts. rewrite H1. reflexivity.
  - vm_compute. reflexivity.
Defined.

(** ** Ranking the contributions *)

Section Ranking.
Import JS.

(** With numbers that are not [NaN], the comparison function sends [a]
    behind [b] exactly when [a]'s percentage is the smaller one. *)
Lemma comparefn_positive (a b : number) :
  isNaN a = false -> isNaN b = false ->
  gt (sub b a) (Fin 0) = lt a b.
Proof.
  destruct a as [x | | |], b as [y | | |]; try discriminate; try reflexivity.
  intros _ _. cbn [sub gt lt].
  destruct (Qlt_bool x y) eqn:E.
  - apply Qlt_bool_iff. apply Qlt_bool_iff in E. rewrite Qred_correct. lra.
  - apply Qlt_bool_false. apply Qlt_bool_false in E. rewrite Qred_correct. lra.
Qed.

(** An entry that goes behind another one has a different percentage. *)
Lemma comparefn_positive_not_eq (a b : number) :
  gt (sub b a) (Fin 0) = true -> eq a b = false.
Proof.
  destruct a as [x | | |], b as [y | | |]; try discriminate; try reflexivity.
  cbn [sub gt lt eq]. intros H. apply Qlt_bool_iff in H.
  rewrite Qred_correct in H.
  destruct (Qeq_bool x y) eqn:E; [| reflexivity].
  apply Qeq_bool_eq in E. lra.
Qed.

Lemma number_eq_trans_l (p a b : number) :
  eq p a = true -> eq p b = true -> eq a b = true.
Proof.
  destruct p as [x | | |], a as [y | | |], b as [z | | |];
    try discriminate; try reflexivity.
  cbn [eq]. rewrite !Qeq_bool_iff. intros H1 H2. rewrite <- H1. exact H2.
Qed.

Lemma number_lt_ge (a b : number) : lt a b = true -> ge b a = true.
Proof.
  destruct a as [x | | |], b as [y | | |]; try discriminate; try reflexivity.
  cbn [lt ge le]. rewrite Qlt_bool_iff, Qle_bool_iff. lra.
Qed.

Lemma number_not_lt_ge (a b : number) :
  isNaN a = false -> isNaN b = false -> lt a b = false -> ge a b = true.
Proof.
  destruct a as [x | | |], b as [y | | |]; try discriminate; try reflexivity.
  cbn [lt ge le]. rewrite Qlt_bool_false, Qle_bool_iff. trivial.
Qed.

Lemma number_ge_trans (a b c : number) :
  ge a b = true -> ge b c = true -> ge a c = true.
Proof.
  destruct a as [x | | |], b as [y | | |], c as [z | | |];
    try discriminate; try reflexivity.
  cbn [ge le]. rewrite !Qle_bool_iff. lra.
Qed.

Lemma ranked_before_trans : Transitive ranked_before.
Proof. intros a b c. apply number_ge_trans. Qed.

Lemma insert_perm (x : string * number) (l : list (string * number)) :
  Arr.insert by_percentage_desc x l ≡ₚ x :: l.
Proof.
  induction l as [| y l IH]; cbn [Arr.insert]; [reflexivity |].
  destruct (gt (by_percentage_desc x y) (Fin 0)); [| reflexivity].
  rewrite IH. apply Permutation_swap.
Qed.

Lemma sort_perm (l : list (string * number)) :
  Arr.sort by_percentage_desc l ≡ₚ l.
Proof.
  induction l as [| x l IH]; [reflexivity |].
  change (Arr.sort by_percentage_desc (x :: l))
    with (Arr.insert by_percentage_desc x (Arr.sort by_percentage_desc l)).
  rewrite insert_perm, IH. reflexivity.
Qed.

Lemma insert_sorted (x : string * number) (l : list (string * number)) :
  not_NaN x -> Forall not_NaN l ->
  Sorted ranked_before l -> Sorted ranked_before (Arr.insert by_percentage_desc x l).
Proof.
  intros Hx Hl Hs. induction l as [| y l IH]; cbn [Arr.insert].
  - repeat constructor.
  - apply Forall_cons in Hl as [Hy Hl]. apply Sorted_inv in Hs as [Hs Hhd].
    unfold by_percentage_desc at 1. rewrite comparefn_positive by assumption.
    destruct (lt x.2 y.2) eqn:E.
    + constructor; [apply IH; assumption |].
      destruct l as [| w l]; cbn [Arr.insert].
      * constructor. apply number_lt_ge, E.
      * destruct (gt (by_percentage_desc x w) (Fin 0)); constructor.
        -- apply HdRel_inv in Hhd. exact Hhd.
        -- apply number_lt_ge, E.
    + constructor; [constructor; assumption |].
      constructor. apply number_not_lt_ge; assumption.
Qed.

Lemma sort_sorted (l : list (string * number)) :
  Forall not_NaN l -> StronglySorted ranked_before (Arr.sort by_percentage_desc l).
Proof.
  intros Hl. apply Sorted_StronglySorted; [exact ranked_before_trans |].
  induction l as [| x l IH]; [constructor |].
  apply Forall_cons in Hl as [Hx Hl].
  change (Arr.sort by_percentage_desc (x :: l))
    with (Arr.insert by_percentage_desc x (Arr.sort by_percentage_desc l)).
  apply insert_sorted; [exact Hx | | apply IH, Hl].
  rewrite sort_perm. exact Hl.
Qed.

(** Inserting an entry leaves the entries of every percentage in their
    order, with the new entry first among its equals. *)
Lemma insert_ties (p : number) (x : string * number) (l : list (string * number)) :
  List.filter (same_percentage p) (Arr.insert by_percentage_desc x l) =
  List.filter (same_percentage p) (x :: l).
Proof.
  induction l as [| y l IH]; [reflexivity |].
  cbn [Arr.insert].
  destruct (gt (by_percentage_desc x y) (Fin 0)) eqn:E; [| reflexivity].
  cbn [List.filter] in *. rewrite IH.
  destruct (same_percentage p x) eqn:Ex; [| reflexivity].
  destruct (same_percentage p y) eqn:Ey; [| reflexivity].
  apply comparefn_positive_not_eq in E.
  rewrite (number_eq_trans_l p x.2 y.2 Ex Ey) in E. discriminate.
Qed.

Lemma sort_ties (p : number) (l : list (string * number)) :
  List.filter (same_percentage p) (Arr.sort by_percentage_desc l) =
  List.filter (same_percentage p) l.
Proof.
  induction l as [| x l IH]; [reflexivity |].
  change (Arr.sort by_percentage_desc (x :: l))
    with (Arr.insert by_percentage_desc x (Arr.sort by_percentage_desc l)).
  rewrite insert_ties. cbn [List.filter]. rewrite IH. reflexivity.
Qed.

Lemma filter_take_prefix {A : Type} (f : A -> bool) (n : nat) (l : list A) :
  List.filter f (take n l) `prefix_of` List.filter f l.
Proof.
  rewrite <- (take_drop n l) at 2. rewrite List.filter_app.
  apply prefix_app_r. reflexivity.
Qed.

End Ranking.

Section CatalogOrder.
Import JS.

Variable catalog : list string.

Lemma ties_in_catalog_order_spec (l : list (string * number)) :
  ties_in_catalog_order catalog l = true <-> StronglySorted (tie_ordered catalog) l.
Proof.
  induction l as [| a l IH]; simpl.
  - split; [constructor | reflexivity].
  - rewrite andb_true_iff, IH, StronglySorted_cons, forallb_forall, Forall_forall.
    split; intros [H1 H2]; (split; [| exact H2]); intros b Hb; apply H1.
    + apply list_elem_of_In, Hb.
    + apply list_elem_of_In, Hb.
Qed.

Lemma number_eq_sym (a b : number) : eq a b = eq b a.
Proof.
  destruct a, b; try reflexivity. apply Qeq_bool_comm.
Qed.

Lemma insert_tie_ordered (x : string * number) (l : list (string * number)) :
  Forall (tie_ordered catalog x) l -> StronglySorted (tie_ordered catalog) l ->
  StronglySorted (tie_ordered catalog) (Arr.insert by_percentage_desc x l).
Proof.
  intros Hx Hl. induction l as [| y l IH]; cbn [Arr.insert].
  - repeat constructor.
  - apply Forall_cons in Hx as [Hxy Hx].
    apply StronglySorted_cons in Hl as [Hy Hl].
    destruct (gt (by_percentage_desc x y) (Fin 0)) eqn:E.
    + apply StronglySorted_cons. split; [| apply IH; assumption].
      rewrite insert_perm. apply Forall_cons. split; [| exact Hy].
      apply comparefn_positive_not_eq in E. unfold tie_ordered.
      rewrite number_eq_sym, E. reflexivity.
    + apply StronglySorted_cons. split.
      * apply Forall_cons. split; assumption.
      * apply StronglySorted_cons. split; assumption.
Qed.

Lemma sort_tie_ordered (l : list (string * number)) :
  StronglySorted (tie_ordered catalog) l ->
  StronglySorted (tie_ordered catalog) (Arr.sort by_percentage_desc l).
Proof.
  induction l as [| x l IH]; intros Hl; [constructor |].
  apply StronglySorted_cons in Hl as [Hx Hl].
  change (Arr.sort by_percentage_desc (x :: l))
    with (Arr.insert by_percentage_desc x (Arr.sort by_percentage_desc l)).
  apply insert_tie_ordered; [| apply IH, Hl].
  rewrite sort_perm. exact Hx.
Qed.

End CatalogOrder.

(** C3, as the code has it: the ranking holds at most five entries, the
    first five of the contributions sorted by percentage, largest first;
    entries with equal percentages keep the order that they have among the
    entries of the contributions object, and are in the order of a catalog
    when they are so in that object.  The contributions A:80, B:80, C:10
    give A, B, C. *)
Theorem top_contributions_ranked (contributions : object) :
  Forall not_NaN contributions ->
  length (sortedContributions contributions) = min 5 (length contributions) /\
  (length (sortedContributions contributions) <= 5)%nat /\
  Arr.sort by_percentage_desc contributions ≡ₚ contributions /\
  StronglySorted ranked_before (Arr.sort by_percentage_desc contributions) /\
  sortedContributions contributions =
    take 5 (Arr.sort by_percentage_desc contributions) /\
  StronglySorted ranked_before (sortedContributions contributions) /\
  (forall p : JS.number,
     List.filter (same_percentage p) (sortedContributions contributions)
     `prefix_of` List.filter (same_percentage p) contributions) /\
  (forall catalog : list string,
     ties_in_catalog_order catalog contributions = true ->
     ties_in_catalog_order catalog (sortedContributions contributions) = true) /\
  sortedContributions [("A", JS.Fin 80); ("B", JS.Fin 80); ("C", JS.Fin 10)] =
    [("A", JS.Fin 80); ("B", JS.Fin 80); ("C", JS.Fin 10)].
Proof.
  intros Hnan. unfold sortedContributions, Arr.slice0.
  pose proof (sort_perm contributions) as Hperm.
  pose proof (sort_sorted contributions Hnan) as Hsorted.
  assert (Hlen : length (take 5 (Arr.sort by_percentage_desc contributions))
                 = min 5 (length contributions)).
  { rewrite length_take, Hperm. reflexivity. }
  repeat apply conj.
  - exact Hlen.
  - rewrite Hlen. apply Nat.le_min_l.
  - exact Hperm.
  - exact Hsorted.
  - reflexivity.
  - rewrite <- (take_drop 5 (Arr.sort by_percentage_desc contributions)) in Hsorted.
    apply StronglySorted_app_1_l in Hsorted. exact Hsorted.
  - intros p. rewrite <- (sort_ties p contributions). apply filter_take_prefix.
  - intros catalog H. apply ties_in_catalog_order_spec.
    apply ties_in_catalog_order_spec, sort_tie_ordered in H.
    rewrite <- (take_drop 5 (Arr.sort by_percentage_desc contributions)) in H.
    apply StronglySorted_app_1_l in H. exact H.
  - vm_compute. reflexivity.
Qed.

(** The claim C3 fails for a contributions object whose entries are not in
    the order of the catalog: B and A tie at 80 and stay in the order B, A,
    against the catalog A, B, C. *)
Lemma ties_not_in_catalog_order :
  sortedContributions [("B", JS.Fin 80); ("A", JS.Fin 80); ("C", JS.Fin 10)] =
    [("B", JS.Fin 80); ("A", JS.Fin 80); ("C", JS.Fin 10)] /\
  ties_in_catalog_order ["A"; "B"; "C"]
    (sortedContributions [("B", JS.Fin 80); ("A", JS.Fin 80); ("C", JS.Fin 10)])
  = false.
Proof. split; vm_compute; reflexivity. Qed.

(** Seven contributions: five are kept, and the two at 80 stay in the order
    of the contributions object. *)
Lemma top_contributions_ranked_witness :
  let contributions : object :=
    [("Temperature_C", JS.Fin 80); ("Media_Errors", JS.Fin 10);
     ("Power_On_Hours", JS.Fin 80); ("CRC_Errors", JS.Fin 90);
     ("Total_TBW_TB", JS.Fin 10); ("Total_TBR_TB", JS.Fin 5);
     ("Unsafe_Shutdowns", JS.Fin 85)] in
  length (sortedContributions contributions) = 5%nat /\
  StronglySorted ranked_before (sortedContributions contributions) /\
  List.filter (same_percentage (JS.Fin 80)) (sortedContributions contributions)
  = [("Temperature_C", JS.Fin 80); ("Power_On_Hours", JS.Fin 80)].
Proof.
  intros contributions.
  assert (Hnan : Forall not_NaN contributions) by (repeat constructor).
  pose proof (top_contributions_ranked contributions Hnan)
    as (H1 & _ & _ & _ & _ & H2 & _).
  split; [rewrite H1; reflexivity |].
  split; [exact H2 | vm_compute; reflexivity].
Defined.

(** ** Collecting and validating the input *)

Section Validation.
Import JS.






Lemma validateInputs_false (data : object) :
  validateInputs data = false <->
  Exists (fun v => isFinite v = false) (Object_values data).
Proof.
  unfold validateInputs. induction (Object_values data) as [| v l IH]; simpl.
  - split; [discriminate | intros H; inversion H].
  - rewrite Exists_cons, <- IH, andb_false_iff, andb_false_iff.
    destruct v; simpl; intuition discriminate.
Qed.


End Validation.





(** * Further properties of the script *)

(** ** The range of the normalized values *)

Section NormalizedRange.
Import JS.

Variables (featureDefaults : object) (index : nat).



End NormalizedRange.








(** ** Properties of the collected input *)

Section Properties.
Import JS.

Lemma get_set_same (k : string) (v : number) (o : object) :
  get_property k (set_property k v o) = Some v.
Proof.
  induction o as [| [k' v'] o IH]; cbn [set_property get_property].
  - rewrite String.eqb_refl. reflexivity.
  - destruct (String.eqb k' k) eqn:E; cbn [get_property].
    + rewrite String.eqb_refl. reflexivity.
    + rewrite E. exact IH.
Qed.

Lemma get_set_other (k k' : string) (v : number) (o : object) :
  k' <> k -> get_property k' (set_property k v o) = get_property k' o.
Proof.
  intros Hne. induction o as [| [k0 v0] o IH]; cbn [set_property get_property].
  - destruct (String.eqb k k') eqn:E; [| reflexivity].
    apply String.eqb_eq in E. congruence.
  - destruct (String.eqb k0 k) eqn:E; cbn [get_property].
    + apply String.eqb_eq in E. subst k0.
      destruct (String.eqb k k') eqn:E'; [| reflexivity].
      apply String.eqb_eq in E'. congruence.
    + rewrite IH. reflexivity.
Qed.

Lemma get_property_None (k : string) (o : object) :
  get_property k o = None <-> k ∉ Object_keys o.
Proof.
  unfold Object_keys. induction o as [| [k' v'] o IH]; cbn [get_property].
  - split; [intros _; apply not_elem_of_nil | reflexivity].
  - rewrite fmap_cons, not_elem_of_cons. cbn [fst].
    destruct (String.eqb k' k) eqn:E.
    + apply String.eqb_eq in E. split; [discriminate | intros [H _]; congruence].
    + apply String.eqb_neq in E. rewrite IH. intuition congruence.
Qed.


Lemma values_set_property (P : number -> Prop) (k : string) (v : number)
    (o : object) :
  P v -> Forall P (Object_values o) -> Forall P (Object_values (set_property k v o)).
Proof.
  unfold Object_values. intros Hv. induction o as [| [k' v'] o IH]; intros Ho.
  - cbn. repeat constructor. exact Hv.
  - cbn [set_property]. rewrite fmap_cons in Ho. apply Forall_cons in Ho as [H1 H2].
    destruct (String.eqb k' k); rewrite fmap_cons; apply Forall_cons.
    + split; assumption.
    + split; [exact H1 | apply IH, H2].
Qed.

(** One more field at the end of the form. *)
Lemma collectInputData_snoc (inputElements : list input_element)
    (input : input_element) :
  collectInputData (inputElements ++ [input]) =
    set_property input.(id) (collected_value input.(value))
      (collectInputData inputElements).
Proof. unfold collectInputData. rewrite foldl_app. reflexivity. Qed.

Lemma collected_value_isNaN (text : string) :
  isNaN (collected_value text) = false.
Proof.
  unfold collected_value. cbv zeta.
  destruct (isNaN (Str.parseFloat text)) eqn:E; [reflexivity | exact E].
Qed.

End Properties.




(** X7: no collected value is [NaN], for any form; so the data of a form is
    refused exactly when one of its values is an infinity. *)
Theorem collected_values_not_NaN (inputElements : list input_element) :
  Forall (fun v => JS.isNaN v = false)
    (Object_values (collectInputData inputElements)) /\
  (validateInputs (collectInputData inputElements) = false <->
   Exists (fun v => v = JS.PosInf \/ v = JS.NegInf)
     (Object_values (collectInputData inputElements))).
Proof.
  assert (H : Forall (fun v => JS.isNaN v = false)
                (Object_values (collectInputData inputElements))).
  { induction inputElements as [| input l IH] using rev_ind; [constructor |].
    rewrite collectInputData_snoc.
    apply values_set_property; [apply collected_value_isNaN | exact IH]. }
  split; [exact H |]. rewrite validateInputs_false.
  induction H as [| v vs Hv _ IH]; [rewrite !Exists_nil; reflexivity |].
  rewrite !Exists_cons, IH.
  destruct v; simpl in *; intuition discriminate.
Qed.

(** ** The body of the request *)

(** X8: a stored temperature threshold that is neither zero nor [NaN] is
    sent as the property [temp_threshold] and leaves the other properties of
    the input data as they are; without a threshold, or with a zero or [NaN]
    one, the request holds the input data alone. *)
Theorem payload_threshold (t : JS.number) (inputData : object) :
  JS.truthy t = true ->
  get_property "temp_threshold" (payload (Some t) inputData) = Some t /\
  (forall k : string,
     k <> "temp_threshold" ->
     get_property k (payload (Some t) inputData) = get_property k inputData) /\
  payload None inputData = inputData /\
  payload (Some (JS.Fin 0)) inputData = inputData /\
  payload (Some JS.NaN) inputData = inputData.
Proof.
  intros Ht. unfold payload. rewrite Ht.
  split; [apply get_set_same |]. split; [| repeat split].
  intros k Hk. apply get_set_other, Hk.
Qed.

(** The threshold 84 of the sample data. *)
Lemma payload_threshold_witness :
  get_property "temp_threshold" (payload (Some (JS.Fin 84)) sampleData)
  = Some (JS.Fin 84) /\
  get_property "Temperature_C" (payload (Some (JS.Fin 84)) sampleData)
  = Some (JS.Fin 47.5).
Proof.
  pose proof (payload_threshold (JS.Fin 84) sampleData eq_refl) as (H1 & H2 & _).
  split; [exact H1 |]. rewrite H2 by discriminate. reflexivity.
Defined.

(** ** The two bandings of the summary *)

(** X9: the icon and the class of the status agree (check mark with
    Healthy, triangle with Warning or Danger) for every finite overall risk
    but 50, where the triangle stands with the class of Healthy; they agree
    as well when the overall risk is not finite. *)
Theorem status_icon_and_class (s : summary) (r : Q) :
  overall_risk s = JS.Fin r ->
  (r == 50 ->
   icon (displaySummary s) = "fa-exclamation-triangle" /\
   className (displaySummary s) = "status-healthy") /\
  (~ r == 50 ->
   (icon (displaySummary s) = "fa-check-circle" <->
    className (displaySummary s) = "status-healthy")) /\
  (forall s' : summary,
     JS.isFinite (overall_risk s') = false ->
     (icon (displaySummary s') = "fa-check-circle" <->
      className (displaySummary s') = "status-healthy")).
Proof.
  intros Hr. split; [| split].
  - intros E. split.
    + rewrite icon_by_threshold, Hr.
      assert (H : JS.ge (JS.Fin r) (JS.Fin 50) = true) by (apply ge_Fin; lra).
      rewrite H. reflexivity.
    + apply className_healthy; rewrite Hr; apply gt_Fin_false; lra.
  - intros Hne. rewrite icon_by_threshold, Hr.
    destruct (Qlt_le_dec r 50) as [Hlt | Hge].
    + assert (H : JS.ge (JS.Fin r) (JS.Fin 50) = false) by (apply ge_Fin_false, Hlt).
      rewrite H. split; [intros _ | reflexivity].
      apply className_healthy; rewrite Hr; apply gt_Fin_false; lra.
    + assert (H : JS.ge (JS.Fin r) (JS.Fin 50) = true) by (apply ge_Fin, Hge).
      rewrite H. split; [discriminate |]. intros Hc.
      assert (H50 : 50 < r).
      { destruct (Qlt_le_dec 50 r) as [? | Hle]; [assumption |].
        exfalso. apply Hne. lra. }
      destruct (Qlt_le_dec 70 r) as [H70 | H70].
      * rewrite className_danger in Hc; [discriminate |].
        rewrite Hr. apply gt_Fin, H70.
      * rewrite className_warning in Hc; [discriminate | |]; rewrite Hr.
        -- apply gt_Fin_false, H70.
        -- apply gt_Fin, H50.
  - intros s' Hs'. rewrite icon_by_threshold.
    destruct (overall_risk s') eqn:E; try discriminate.
    + split; [discriminate | intros Hc].
      rewrite className_danger in Hc; [discriminate | rewrite E; reflexivity].
    + split; [intros _ | reflexivity].
      apply className_healthy; rewrite E; reflexivity.
    + split; [intros _ | reflexivity].
      apply className_healthy; rewrite E; reflexivity.
Qed.

(** At 50 the two differ, at 49 and at 60 they agree. *)
Lemma status_icon_and_class_witness :
  let s r := {| overall_risk := JS.Fin r; status := "Warning";
                predictions := []; recommendation := [] |} in
  (icon (displaySummary (s 50)) = "fa-exclamation-triangle" /\
   className (displaySummary (s 50)) = "status-healthy") /\
  (icon (displaySummary (s 49)) = "fa-check-circle" <->
   className (displaySummary (s 49)) = "status-healthy").
Proof.
  intros s.
  pose proof (status_icon_and_class (s 50) 50 eq_refl) as (H1 & _).
  pose proof (status_icon_and_class (s 49) 49 eq_refl) as (_ & H2 & _).
  split; [apply H1; reflexivity | apply H2; discriminate].
Defined.

(** X10: the summary shows one risk meter for each prediction, with the
    label Low below 50, Medium from 50 to below 70 and High from 70 on (and
    for [NaN]): at 50 and at 70 the label is already the higher one, unlike
    the class of the status. *)
Theorem risk_meter_label (s : summary) (type : string) (r : Q) :
  (type, JS.Fin r) ∈ predictions s ->
  exists label : string,
    {| meter_type := type; meter_risk := JS.Fin r; meter_label := label |}
      ∈ riskMeters (displaySummary s) /\
    (r < 50 -> label = "Low") /\
    (50 <= r /\ r < 70 -> label = "Medium") /\
    (70 <= r -> label = "High") /\
    length (riskMeters (displaySummary s)) = length (predictions s) /\
    (forall type' : string,
       (type', JS.NaN) ∈ predictions s ->
       {| meter_type := type'; meter_risk := JS.NaN; meter_label := "High" |}
         ∈ riskMeters (displaySummary s)).
Proof.
  intros Hin.
  exists (if JS.lt (JS.Fin r) (JS.Fin 50) then "Low"
          else if JS.lt (JS.Fin r) (JS.Fin 70) then "Medium" else "High").
  split; [| split; [| split; [| split; [| split]]]].
  - unfold displaySummary. cbn [riskMeters].
    apply list_elem_of_fmap. exists (type, JS.Fin r). split; [reflexivity | exact Hin].
  - intros H. apply Qlt_bool_iff in H. cbn [JS.lt]. rewrite H. reflexivity.
  - intros [H1 H2]. apply Qlt_bool_false in H1. apply Qlt_bool_iff in H2.
    cbn [JS.lt]. rewrite H1, H2. reflexivity.
  - intros H.
    assert (H1 : JS.Qlt_bool r 50 = false) by (apply Qlt_bool_false; lra).
    assert (H2 : JS.Qlt_bool r 70 = false) by (apply Qlt_bool_false; lra).
    cbn [JS.lt]. rewrite H1, H2. reflexivity.
  - unfold displaySummary. cbn [riskMeters]. apply length_map.
  - intros type' Hin'. unfold displaySummary. cbn [riskMeters].
    apply list_elem_of_fmap. exists (type', JS.NaN). split; [reflexivity | exact Hin'].
Qed.

(** A thermal risk of exactly 70 is labelled High. *)
Lemma risk_meter_label_witness :
  {| meter_type := "thermal"; meter_risk := JS.Fin 70; meter_label := "High" |}
    ∈ riskMeters (displaySummary
        {| overall_risk := JS.Fin 70; status := "Warning";
           predictions := [("wearout", JS.Fin 20); ("thermal", JS.Fin 70)];
           recommendation := [] |}).
Proof.
  destruct (risk_meter_label
              {| overall_risk := JS.Fin 70; status := "Warning";
                 predictions := [("wearout", JS.Fin 20); ("thermal", JS.Fin 70)];
                 recommendation := [] |} "thermal" 70)
    as (label & Hin & _ & _ & Hhigh & _).
  - apply elem_of_cons. right. apply elem_of_cons. left. reflexivity.
  - rewrite (Hhigh ltac:(discriminate)) in Hin. exact Hin.
Defined.

(** ** The view of the top contributions *)



(** X12: the entries that the ranking leaves out are not larger than the
    entries that it shows; with five entries or fewer nothing is left out. *)
Theorem top_five_dominate (contributions : object) :
  Forall not_NaN contributions ->
  exists rest : list (string * JS.number),
    contributions ≡ₚ (sortedContributions contributions ++ rest)%list /\
    (forall shown omitted : string * JS.number,
       shown ∈ sortedContributions contributions -> omitted ∈ rest ->
       JS.ge shown.2 omitted.2 = true) /\
    ((length contributions <= 5)%nat -> rest = []).
Proof.
  intros Hnan. exists (drop 5 (Arr.sort by_percentage_desc contributions)).
  unfold sortedContributions, Arr.slice0. split; [| split].
  - rewrite take_drop, sort_perm. reflexivity.
  - pose proof (sort_sorted contributions Hnan) as Hs.
    rewrite <- (take_drop 5 (Arr.sort by_percentage_desc contributions)) in Hs.
    intros shown omitted H1 H2.
    apply (StronglySorted_app_1_elem_of _ _ _ _ _ Hs H1 H2).
  - intros Hlen. apply drop_ge. rewrite sort_perm. exact Hlen.
Qed.

(** Six contributions: the one that is left out is the smallest. *)
Lemma top_five_dominate_witness :
  exists rest : list (string * JS.number),
    (forall shown omitted : string * JS.number,
       shown ∈ sortedContributions
                 [("a", JS.Fin 3); ("b", JS.Fin 9); ("c", JS.Fin 1);
                  ("d", JS.Fin 7); ("e", JS.Fin 5); ("f", JS.Fin 8)] ->
       omitted ∈ rest -> JS.ge shown.2 omitted.2 = true) /\
    length rest = 1%nat.
Proof.
  destruct (top_five_dominate
              [("a", JS.Fin 3); ("b", JS.Fin 9); ("c", JS.Fin 1);
               ("d", JS.Fin 7); ("e", JS.Fin 5); ("f", JS.Fin 8)])
    as (rest & Hperm & Hdom & _); [repeat constructor |].
  exists rest. split; [exact Hdom |].
  apply Permutation_length in Hperm. rewrite length_app in Hperm.
  change (length (sortedContributions _)) with 5%nat in Hperm.
  cbn [length] in Hperm. lia.
Defined.

(** ** The risk indicators of a model *)

(** X13: the needle of the speed meter turns linearly with the risk, from
    -135 degrees at 0 to 135 degrees at 100, and is not clamped: a risk
    above 100 turns it beyond 135 degrees and a negative risk below -135;
    the value is green below 30, orange from 30 to below 70 and red from 70
    on; without needle or value element nothing is written. *)
Theorem speed_meter_needle (r : Q) :
  exists a : Q,
    needle_angle <$> updateSpeedMeter true (JS.Fin r) = Some (JS.Fin a) /\
    a == -135 + (r / 100) * 270 /\
    (0 <= r <= 100 -> -135 <= a <= 135) /\
    (100 < r -> 135 < a) /\
    (r < 0 -> a < -135) /\
    (r < 30 -> value_color <$> updateSpeedMeter true (JS.Fin r) = Some "#27ae60") /\
    (30 <= r < 70 ->
     value_color <$> updateSpeedMeter true (JS.Fin r) = Some "#f39c12") /\
    (70 <= r -> value_color <$> updateSpeedMeter true (JS.Fin r) = Some "#e74c3c") /\
    updateSpeedMeter false (JS.Fin r) = None.
Proof.
  eexists. split; [reflexivity |].
  assert (E : Qred (-135 + Qred (Qred (r / 100) * Qred (135 - -135)))
              == -135 + (r / 100) * 270).
  { rewrite !Qred_correct. reflexivity. }
  assert (Hdiv : r / 100 == r * (1 # 100)) by reflexivity.
  split; [exact E |]. rewrite E, Hdiv.
  split; [intros [H0 H1]; split; lra |].
  split; [intros H; lra |]. split; [intros H; lra |].
  unfold updateSpeedMeter. cbn [negb fmap option_fmap option_map value_color JS.lt].
  split; [| split; [| split; [| reflexivity]]].
  - intros H. apply Qlt_bool_iff in H. rewrite H. reflexivity.
  - intros [H1 H2]. apply Qlt_bool_false in H1. apply Qlt_bool_iff in H2.
    rewrite H1, H2. reflexivity.
  - intros H.
    assert (H1 : JS.Qlt_bool r 30 = false) by (apply Qlt_bool_false; lra).
    assert (H2 : JS.Qlt_bool r 70 = false) by (apply Qlt_bool_false; lra).
    rewrite H1, H2. reflexivity.
Qed.


(** ** The charts across the operations of the page *)

Section Charts.

Variable featureDefaults : object.

(** The chart that [initializeRadarCharts] makes. *)
Let initial_chart : chart :=
  {| labels := map formatLabel (Object_keys featureDefaults);
     data := default_data featureDefaults |}.

Lemma updateRadarChart_lookup (type : string) (inputData : object)
    (charts : gmap string chart) (k : string) :
  updateRadarChart featureDefaults type inputData charts !! k =
    if decide (k = String.append type "Radar")
    then with_data (normalized_values featureDefaults inputData) <$> charts !! k
    else charts !! k.
Proof.
  unfold updateRadarChart. cbv zeta.
  destruct (charts !! String.append type "Radar") as [c |] eqn:E;
    destruct (decide (k = String.append type "Radar")) as [-> | Hne].
  - rewrite lookup_insert_eq, E. reflexivity.
  - rewrite lookup_insert_ne by congruence. reflexivity.
  - rewrite E. reflexivity.
  - reflexivity.
Qed.

Lemma init_fold_lookup (canvas : string -> bool) (ids : list string)
    (charts : gmap string chart) (k : string) :
  foldl (init_step featureDefaults canvas) charts ids !! k =
    if bool_decide (k ∈ ids) && canvas k then Some initial_chart
    else charts !! k.
Proof.
  revert charts. induction ids as [| id ids IH]; intros charts; [reflexivity |].
  cbn [foldl]. rewrite IH. unfold init_step.
  destruct (decide (k = id)) as [-> | Hne].
  - rewrite (bool_decide_eq_true_2 (id ∈ id :: ids))
      by (apply elem_of_cons; left; reflexivity).
    destruct (canvas id) eqn:Hc.
    + rewrite andb_true_r, lookup_insert_eq.
      destruct (bool_decide (id ∈ ids)); reflexivity.
    + rewrite !andb_false_r. reflexivity.
  - assert (E : bool_decide (k ∈ id :: ids) = bool_decide (k ∈ ids)).
    { apply bool_decide_ext. rewrite elem_of_cons. intuition congruence. }
    rewrite E. destruct (bool_decide (k ∈ ids) && canvas k); [reflexivity |].
    destruct (canvas id); [apply lookup_insert_ne; congruence | reflexivity].
Qed.

Lemma reset_fold_lookup (types : list string) (charts : gmap string chart)
    (k : string) :
  foldl (reset_step featureDefaults) charts types !! k =
    if bool_decide (k ∈ map (fun type => String.append type "Radar") types)
    then with_data (default_data featureDefaults) <$> charts !! k
    else charts !! k.
Proof.
  revert charts. induction types as [| type types IH]; intros charts; [reflexivity |].
  cbn [foldl map]. rewrite IH. unfold reset_step. cbv zeta.
  set (ids := map (fun type => String.append type "Radar") types).
  destruct (decide (k = String.append type "Radar")) as [-> | Hne].
  - rewrite (bool_decide_eq_true_2 (_ ∈ _ :: ids))
      by (apply elem_of_cons; left; reflexivity).
    destruct (charts !! String.append type "Radar") as [c |] eqn:E.
    + rewrite lookup_insert_eq. destruct (bool_decide _); reflexivity.
    + rewrite E. destruct (bool_decide _); reflexivity.
  - assert (E : bool_decide (k ∈ String.append type "Radar" :: ids)
                = bool_decide (k ∈ ids)).
    { apply bool_decide_ext. rewrite elem_of_cons. intuition congruence. }
    rewrite E.
    assert (E' : (match charts !! String.append type "Radar" with
                  | Some c =>
                      <[String.append type "Radar" :=
                          {| labels := labels c;
                             data := default_data featureDefaults |}]> charts
                  | None => charts
                  end) !! k = charts !! k).
    { destruct (charts !! String.append type "Radar");
        [apply lookup_insert_ne; congruence | reflexivity]. }
    rewrite E'. reflexivity.
Qed.

Lemma radar_ids : map (fun type => String.append type "Radar") modelTypes = chartIds.
Proof. reflexivity. Qed.

Lemma resetForm_lookup (charts : gmap string chart) (k : string) :
  resetForm featureDefaults charts !! k =
    if bool_decide (k ∈ chartIds)
    then with_data (default_data featureDefaults) <$> charts !! k
    else charts !! k.
Proof. unfold resetForm. rewrite reset_fold_lookup, radar_ids. reflexivity. Qed.

Lemma initializeRadarCharts_lookup (canvas : string -> bool)
    (charts : gmap string chart) (k : string) :
  initializeRadarCharts canvas featureDefaults charts !! k =
    if bool_decide (k ∈ chartIds) && canvas k then Some initial_chart
    else charts !! k.
Proof. apply init_fold_lookup. Qed.

Lemma displayResults_lookup (charts : gmap string chart) (r : results)
    (inputData : object) (k : string) :
  shown_charts (displayResults featureDefaults charts r inputData) !! k =
    if bool_decide (k ∈ chartIds)
    then with_data (normalized_values featureDefaults inputData) <$> charts !! k
    else charts !! k.
Proof.
  unfold displayResults, displayPrediction. cbv zeta. cbn [shown_charts].
  rewrite !updateRadarChart_lookup.
  change (String.append "controller" "Radar") with "controllerRadar".
  change (String.append "power" "Radar") with "powerRadar".
  change (String.append "thermal" "Radar") with "thermalRadar".
  change (String.append "wearout" "Radar") with "wearoutRadar".
  unfold chartIds.
  repeat case_decide; subst; try discriminate;
    try (rewrite bool_decide_eq_true_2
           by (rewrite !elem_of_cons; intuition congruence));
    try (rewrite bool_decide_eq_false_2
           by (rewrite !elem_of_cons, elem_of_nil; intuition congruence));
    reflexivity.
Qed.

End Charts.

Section ChartValues.
Import JS.

Variable featureDefaults : object.


End ChartValues.


(** X16: [displayResults] shows the summary and then the four models in the
    order wearout, thermal, power, controller, and gives each of the four
    radar charts that exist the same data, the normalized input; no other
    chart changes and none is made. *)
Theorem displayResults_effect (featureDefaults : object)
    (radarCharts : gmap string chart) (r : results) (inputData : object) :
  let d := displayResults featureDefaults radarCharts r inputData in
  shown_summary d = displaySummary (results_summary r) /\
  map fst (shown_risks d) = modelTypes /\
  shown_contributions d =
    [("wearout", displayTopContributions (contributions (wearout r)));
     ("thermal", displayTopContributions (contributions (thermal r)));
     ("power", displayTopContributions (contributions (power r)));
     ("controller", displayTopContributions (contributions (controller r)))] /\
  (forall k : string,
     shown_charts d !! k =
       if bool_decide (k ∈ chartIds)
       then with_data (normalized_values featureDefaults inputData)
              <$> radarCharts !! k
       else radarCharts !! k).
Proof.
  cbv zeta. repeat split. apply displayResults_lookup.
Qed.

(** X17: the reset brings the radar charts back to what
    [initializeRadarCharts] made of the empty table of charts, whatever
    results and input data were displayed in between. *)
Theorem reset_restores_initial_charts (canvas : string -> bool)
    (featureDefaults : object) (r : results) (inputData : object) :
  let initial := initializeRadarCharts canvas featureDefaults ∅ in
  resetForm featureDefaults
    (shown_charts (displayResults featureDefaults initial r inputData))
  = initial.
Proof.
  cbv zeta. apply map_eq. intros k.
  rewrite resetForm_lookup, displayResults_lookup, initializeRadarCharts_lookup.
  rewrite lookup_empty.
  destruct (bool_decide (k ∈ chartIds)); [| reflexivity].
  destruct (canvas k); reflexivity.
Qed.

(** X18: the reset keeps the charts that there are and their labels, makes
    no new chart, and a second reset changes nothing. *)
Theorem resetForm_idempotent (featureDefaults : object)
    (radarCharts : gmap string chart) :
  resetForm featureDefaults (resetForm featureDefaults radarCharts)
  = resetForm featureDefaults radarCharts /\
  (forall k : string,
     labels <$> resetForm featureDefaults radarCharts !! k
     = labels <$> radarCharts !! k).
Proof.
  split.
  - apply map_eq. intros k. rewrite !resetForm_lookup.
    destruct (bool_decide (k ∈ chartIds)); [| reflexivity].
    destruct (radarCharts !! k); reflexivity.
  - intros k. rewrite resetForm_lookup.
    destruct (bool_decide (k ∈ chartIds)); [| reflexivity].
    destruct (radarCharts !! k); reflexivity.
Qed.

(** X19: starting from no charts, [initializeRadarCharts] makes a chart for
    exactly those of the four ids whose canvas exists, each with one label
    and one datum for every feature of the defaults. *)
Theorem initial_charts (canvas : string -> bool) (featureDefaults : object)
    (k : string) :
  (is_Some (initializeRadarCharts canvas featureDefaults ∅ !! k) <->
   k ∈ chartIds /\ canvas k = true) /\
  (forall c : chart,
     initializeRadarCharts canvas featureDefaults ∅ !! k = Some c ->
     labels c = map formatLabel (Object_keys featureDefaults) /\
     length (labels c) = length featureDefaults /\
     length (data c) = length featureDefaults).
Proof.
  rewrite initializeRadarCharts_lookup, lookup_empty. split.
  - destruct (bool_decide (k ∈ chartIds)) eqn:E.
    + apply bool_decide_eq_true_1 in E. destruct (canvas k); cbn [andb].
      * split; [auto | eauto].
      * split; [intros [? ?]; discriminate | intros [_ ?]; discriminate].
    + apply bool_decide_eq_false_1 in E. cbn [andb].
      split; [intros [? ?]; discriminate | intros [? _]; contradiction].
  - intros c Hc.
    destruct (bool_decide (k ∈ chartIds) && canvas k); [| discriminate].
    injection Hc as <-. cbn [labels data]. unfold default_data.
    unfold Object_keys, Object_values.
    rewrite ?length_map, ?length_fmap. repeat split.
Qed.

(** ** The tooltips of the radar charts *)

Section Tooltips.
Import JS.

Variable featureDefaults : object.



End Tooltips.






(** ** The round trip of plain names through their labels *)

Section PlainLabels.

Lemma append_one (c : ascii) (s : string) :
  String.append (String c EmptyString) s = String c s.
Proof. reflexivity. Qed.

(** Step 1 of [formatLabel] acts on every character by itself. *)
Lemma underscores_replaced (prev : option ascii) (s : string) :
  Str.replace_g re_underscore prev 0 s = string_map underscore_to_space s.
Proof.
  revert prev. induction s as [| c s IH]; intros prev; [reflexivity |].
  cbn [Str.replace_g re_underscore string_map]. unfold underscore_to_space.
  destruct (Str.code c =? 95)%N; rewrite IH; reflexivity.
Qed.

Lemma word_not_space (c : ascii) :
  Str.is_word c = true ->
  (Str.code c =? 32)%N = false /\ Str.is_whitespace c = false /\
  (Str.code c =? 40)%N = false.
Proof.
  destruct c as [[] [] [] [] [] [] [] []]; intros H;
    solve [discriminate H | repeat split].
Qed.

Lemma plain_name_label (after : bool) (s : string) :
  plain_name_from after s = true ->
  plain_label_from after (string_map underscore_to_space s) = true.
Proof.
  revert after. induction s as [| c s IH]; intros after H; [reflexivity |].
  cbn [plain_name_from string_map plain_label_from] in *.
  unfold underscore_to_space.
  destruct (Str.code c =? 95)%N eqn:E.
  - apply andb_prop in H as [H1 H2]. change (Str.code " " =? 32)%N with true.
    cbv iota. rewrite H1, IH by exact H2. reflexivity.
  - apply andb_prop in H as [H1 H2].
    destruct (word_not_space c H1) as (E32 & _).
    rewrite E32, E, H1, IH by exact H2. reflexivity.
Qed.

(** A capital letter has the lower-case letter and the class of the
    letter. *)
Lemma toUpperCase_word_class (c : ascii) :
  Str.toLowerCase_char (Str.toUpperCase_word c) = Str.toLowerCase_char c /\
  (Str.code (Str.toUpperCase_word c) =? 32)%N = (Str.code c =? 32)%N /\
  (Str.code (Str.toUpperCase_word c) =? 95)%N = (Str.code c =? 95)%N /\
  Str.is_word (Str.toUpperCase_word c) = Str.is_word c.
Proof.
  destruct c as [[] [] [] [] [] [] [] []]; repeat split.
Qed.

Lemma capitalized_lower (prev : option ascii) (s : string) :
  Str.toLowerCase (Str.replace_g re_word_start prev 0 s) = Str.toLowerCase s.
Proof.
  revert prev. induction s as [| c s IH]; intros prev; [reflexivity |].
  cbn [Str.replace_g re_word_start].
  destruct (Str.is_word c && negb (from_option Str.is_word false prev)).
  - rewrite append_one. cbn [Str.toLowerCase]. rewrite IH.
    destruct (toUpperCase_word_class c) as (-> & _). reflexivity.
  - cbn [Str.toLowerCase]. rewrite IH. reflexivity.
Qed.

Lemma capitalized_plain (after : bool) (prev : option ascii) (s : string) :
  plain_label_from after s = true ->
  plain_label_from after (Str.replace_g re_word_start prev 0 s) = true.
Proof.
  revert after prev. induction s as [| c s IH]; intros after prev H; [reflexivity |].
  cbn [Str.replace_g re_word_start].
  destruct (Str.is_word c && negb (from_option Str.is_word false prev)).
  - rewrite append_one. cbn [plain_label_from] in *.
    destruct (toUpperCase_word_class c) as (_ & -> & -> & ->).
    destruct (Str.code c =? 32)%N.
    + apply andb_prop in H as [H1 H2]. rewrite H1, IH by exact H2. reflexivity.
    + apply andb_prop in H as [H1 H2]. rewrite H1, IH by exact H2. reflexivity.
  - cbn [plain_label_from] in *.
    destruct (Str.code c =? 32)%N.
    + apply andb_prop in H as [H1 H2]. rewrite H1, IH by exact H2. reflexivity.
    + apply andb_prop in H as [H1 H2]. rewrite H1, IH by exact H2. reflexivity.
Qed.

Lemma prefix_Tb (s : string) :
  String.prefix "Tb" s = true -> exists r, s = String "T" (String "b" r).
Proof.
  intros H. rewrite <- (prefix_drop "Tb" s H). eexists. reflexivity.
Qed.

Lemma Tb_fixed_lower (prev : option ascii) (s : string) :
  Str.toLowerCase (Str.replace_1 (Str.literal "Tb" "TB") prev s) = Str.toLowerCase s.
Proof.
  revert prev. induction s as [| c s IH]; intros prev; [reflexivity |].
  cbn [Str.replace_1]. unfold Str.literal at 1.
  destruct (String.prefix "Tb" (String c s)) eqn:E.
  - destruct (prefix_Tb _ E) as (r & ->). reflexivity.
  - cbn [Str.toLowerCase]. rewrite IH. reflexivity.
Qed.

Lemma Tb_fixed_plain (after : bool) (prev : option ascii) (s : string) :
  plain_label_from after s = true ->
  plain_label_from after (Str.replace_1 (Str.literal "Tb" "TB") prev s) = true.
Proof.
  revert after prev. induction s as [| c s IH]; intros after prev H; [reflexivity |].
  cbn [Str.replace_1]. unfold Str.literal at 1.
  destruct (String.prefix "Tb" (String c s)) eqn:E.
  - destruct (prefix_Tb _ E) as (r & Es). rewrite Es in *. exact H.
  - cbn [plain_label_from] in *.
    destruct (Str.code c =? 32)%N.
    + apply andb_prop in H as [H1 H2]. rewrite H1, IH by exact H2. reflexivity.
    + apply andb_prop in H as [H1 H2]. rewrite H1, IH by exact H2. reflexivity.
Qed.

Lemma space_char (c : ascii) : (Str.code c =? 32)%N = true -> c = " "%char.
Proof.
  intros H. apply N.eqb_eq in H. unfold Str.code in H.
  rewrite <- (ascii_N_embedding c), H. reflexivity.
Qed.

(** The pattern of step 4 does not match at a character that is not a
    space. *)
Lemma trailing_C_not_at (prev : option ascii) (c : ascii) (s : string) :
  (Str.code c =? 32)%N = false -> re_trailing_C prev (String c s) = None.
Proof.
  intros H. unfold re_trailing_C. cbn [String.prefix].
  destruct (ascii_dec " " c) as [<- |]; [cbv in H; discriminate H | reflexivity].
Qed.

(** Where it matches, a single letter C follows the space and the
    replacement is the unit in parentheses. *)
Lemma trailing_C_at (prev : option ascii) (s : string) (n : nat) (rep : string) :
  re_trailing_C prev (String " " s) = Some (n, rep) ->
  exists r : string,
    s = String "C" r /\ n = 2%nat /\
    rep = String " " (String "(" (String Str.degree_sign (String "C" (String ")" EmptyString)))).
Proof.
  unfold re_trailing_C. cbn [String.prefix].
  destruct (ascii_dec " " " ") as [_ |]; [| contradiction].
  destruct s as [| d r]; [discriminate |].
  cbn [String.prefix].
  destruct (ascii_dec "C" d) as [<- |]; [| discriminate].
  cbn [String.prefix Str.drop]. intros H. exists r.
  destruct r as [| e r'].
  - injection H as <- <-. repeat split.
  - destruct (Str.is_whitespace e); [| discriminate].
    injection H as <- <-. repeat split.
Qed.

Lemma prefix_append (p y : string) : String.prefix p (String.append p y) = true.
Proof.
  induction p as [| a p IH]; [destruct y; reflexivity |].
  change (String.append (String a p) y) with (String a (String.append p y)).
  cbn [String.prefix]. destruct (ascii_dec a a); [exact IH | contradiction].
Qed.

(** The pattern of the inverse matches the unit after one space. *)
Lemma degree_unit_at (prev : option ascii) (y : string) :
  re_degree_unit prev
    (String " " (String "(" (String Str.degree_sign (String "C" (String ")" y)))))
  = Some (5%nat, " C").
Proof.
  unfold re_degree_unit.
  change (Str.trim_start
            (String " " (String "(" (String Str.degree_sign (String "C" (String ")" y))))))
    with (String.append (String "(" (String Str.degree_sign "C)")) y).
  cbv zeta. rewrite prefix_append.
  f_equal. f_equal.
  change (String.append (String "(" (String Str.degree_sign "C)")) y)
    with (String "(" (String Str.degree_sign (String "C" (String ")" y)))).
  cbn [String.length]. lia.
Qed.

(** It does not match at a letter or a digit. *)
Lemma degree_unit_not_at_word (prev : option ascii) (c : ascii) (s : string) :
  Str.is_word c = true -> re_degree_unit prev (String c s) = None.
Proof.
  intros H. destruct (word_not_space c H) as (_ & Hws & H40).
  unfold re_degree_unit. cbn [Str.trim_start]. rewrite Hws. cbv zeta.
  cbn [String.prefix].
  destruct (ascii_dec "(" c) as [<- |]; [cbv in H40; discriminate H40 | reflexivity].
Qed.

(** Nor at a space that a letter or a digit follows. *)
Lemma degree_unit_not_at_space (prev : option ascii) (d : ascii) (s : string) :
  Str.is_word d = true -> re_degree_unit prev (String " " (String d s)) = None.
Proof.
  intros H. destruct (word_not_space d H) as (_ & Hws & H40).
  unfold re_degree_unit.
  change (Str.trim_start (String " " (String d s)))
    with (Str.trim_start (String d s)).
  cbn [Str.trim_start]. rewrite Hws. cbv zeta. cbn [String.prefix].
  destruct (ascii_dec "(" d) as [<- |]; [cbv in H40; discriminate H40 | reflexivity].
Qed.

Lemma plain_label_space (after : bool) (s : string) :
  plain_label_from after (String " " s) = true ->
  after = false /\ plain_label_from true s = true.
Proof.
  cbn [plain_label_from]. change (Str.code " " =? 32)%N with true. cbv iota.
  intros H. apply andb_prop in H as [H1 H2]. apply negb_true_iff in H1. auto.
Qed.

Lemma plain_label_word (after : bool) (c : ascii) (s : string) :
  (Str.code c =? 32)%N = false ->
  plain_label_from after (String c s) = true ->
  Str.is_word c = true /\ plain_label_from false s = true.
Proof.
  cbn [plain_label_from]. intros ->. intros H.
  apply andb_prop in H as [H1 H2]. apply andb_prop in H1 as [H1 _]. auto.
Qed.

Lemma replace_g_no_match (re : Str.matcher) (prev : option ascii) (c : ascii)
    (s : string) :
  re prev (String c s) = None ->
  Str.replace_g re prev 0 (String c s) = String c (Str.replace_g re (Some c) 0 s).
Proof. intros H. cbn [Str.replace_g]. rewrite H. reflexivity. Qed.

Lemma replace_g_match (re : Str.matcher) (prev : option ascii) (c : ascii)
    (s : string) (k : nat) (rep : string) :
  re prev (String c s) = Some (S k, rep) ->
  Str.replace_g re prev 0 (String c s) =
    String.append rep (Str.replace_g re (Some c) k s).
Proof. intros H. cbn [Str.replace_g]. rewrite H. reflexivity. Qed.

(** On a plain label the inverse takes back step 4 of [formatLabel]. *)
Lemma degree_unit_undone (n : nat) :
  forall (s : string) (after : bool) (prev prev' : option ascii),
    (String.length s <= n)%nat ->
    plain_label_from after s = true ->
    Str.replace_g re_degree_unit prev' 0 (Str.replace_g re_trailing_C prev 0 s) = s.
Proof.
  induction n as [| n IH]; intros s after prev prev' Hlen Hplain.
  { destruct s; [reflexivity | cbn [String.length] in Hlen; lia]. }
  destruct s as [| c s]; [reflexivity |]. cbn [String.length] in Hlen.
  destruct (Str.code c =? 32)%N eqn:Ec.
  - apply space_char in Ec. subst c.
    apply plain_label_space in Hplain as [-> Hplain].
    destruct s as [| d s]; [reflexivity |]. cbn [String.length] in Hlen.
    assert (Ed : (Str.code d =? 32)%N = false).
    { cbn [plain_label_from] in Hplain.
      destruct (Str.code d =? 32)%N; [discriminate Hplain | reflexivity]. }
    destruct (plain_label_word true d s Ed Hplain) as [Hd Hs].
    destruct (re_trailing_C prev (String " " (String d s))) as [[k rep] |] eqn:M.
    + destruct (trailing_C_at prev _ k rep M) as (r & E & -> & ->).
      injection E as -> ->.
      rewrite (replace_g_match _ _ _ _ _ _ M).
      change (Str.replace_g re_trailing_C (Some " "%char) 1 (String "C" r))
        with (Str.replace_g re_trailing_C (Some "C"%char) 0 r).
      change (String.append
                (String " " (String "(" (String Str.degree_sign (String "C" (String ")" EmptyString)))))
                (Str.replace_g re_trailing_C (Some "C"%char) 0 r))
        with (String " " (String "(" (String Str.degree_sign (String "C" (String ")"
                (Str.replace_g re_trailing_C (Some "C"%char) 0 r)))))).
      rewrite (replace_g_match _ _ _ _ _ _ (degree_unit_at prev' _)).
      change (String.append " C" ?x) with (String " " (String "C" x)).
      f_equal. f_equal.
      change (Str.replace_g re_degree_unit (Some " "%char) 4
                (String "(" (String Str.degree_sign (String "C" (String ")"
                   (Str.replace_g re_trailing_C (Some "C"%char) 0 r))))))
        with (Str.replace_g re_degree_unit (Some ")"%char) 0
                (Str.replace_g re_trailing_C (Some "C"%char) 0 r)).
      apply (IH r false); [lia | exact Hs].
    + rewrite (replace_g_no_match _ _ _ _ M).
      rewrite (replace_g_no_match re_trailing_C _ _ _
                 (trailing_C_not_at (Some " "%char) d s Ed)).
      rewrite (replace_g_no_match re_degree_unit _ _ _
                 (degree_unit_not_at_space prev' d _ Hd)).
      f_equal.
      rewrite <- (replace_g_no_match re_trailing_C _ _ _
                    (trailing_C_not_at (Some " "%char) d s Ed)).
      apply (IH (String d s) true); [cbn [String.length]; lia | exact Hplain].
  - destruct (plain_label_word after c s Ec Hplain) as [Hc Hs].
    rewrite (replace_g_no_match _ _ _ _ (trailing_C_not_at prev c s Ec)).
    rewrite (replace_g_no_match _ _ _ _ (degree_unit_not_at_word prev' c _ Hc)).
    f_equal. apply (IH s false); [lia | exact Hs].
Qed.

(** On a plain label [/\s+/g] finds single spaces only. *)
Lemma spaces_replaced (after : bool) (prev : option ascii) (s : string) :
  plain_label_from after s = true ->
  Str.replace_g re_spaces prev 0 s = string_map space_to_underscore s.
Proof.
  revert after prev. induction s as [| c s IH]; intros after prev H; [reflexivity |].
  cbn [string_map]. unfold space_to_underscore.
  destruct (Str.code c =? 32)%N eqn:Ec.
  - apply space_char in Ec. subst c.
    apply plain_label_space in H as [-> H].
    assert (M : re_spaces prev (String " " s) = Some (1%nat, "_")).
    { unfold re_spaces.
      change (Str.trim_start (String " " s)) with (Str.trim_start s).
      assert (E : Str.trim_start s = s).
      { destruct s as [| d s]; [reflexivity |].
        assert (Ed : (Str.code d =? 32)%N = false).
        { cbn [plain_label_from] in H.
          destruct (Str.code d =? 32)%N; [discriminate H | reflexivity]. }
        destruct (plain_label_word true d s Ed H) as [Hd _].
        destruct (word_not_space d Hd) as (_ & Hws & _).
        cbn [Str.trim_start]. rewrite Hws. reflexivity. }
      rewrite E. cbn [String.length]. rewrite Nat.sub_succ_l, Nat.sub_diag by lia.
      reflexivity. }
    rewrite (replace_g_match _ _ _ _ _ _ M), (IH true) by exact H. reflexivity.
  - destruct (plain_label_word after c s Ec H) as [Hc Hs].
    destruct (word_not_space c Hc) as (_ & Hws & _).
    assert (M : re_spaces prev (String c s) = None).
    { unfold re_spaces. cbn [Str.trim_start]. rewrite Hws, Nat.sub_diag.
      reflexivity. }
    rewrite (replace_g_no_match _ _ _ _ M), (IH false) by exact Hs. reflexivity.
Qed.

Lemma lower_space_to_underscore (s : string) :
  Str.toLowerCase (string_map space_to_underscore s) =
  string_map space_to_underscore (Str.toLowerCase s).
Proof.
  induction s as [| c s IH]; [reflexivity |].
  cbn [string_map Str.toLowerCase]. rewrite IH. f_equal.
  destruct c as [[] [] [] [] [] [] [] []]; reflexivity.
Qed.

Lemma plain_name_lower (after : bool) (s : string) :
  plain_name_from after s = true ->
  string_map space_to_underscore
    (Str.toLowerCase (string_map underscore_to_space s)) = Str.toLowerCase s.
Proof.
  revert after. induction s as [| c s IH]; intros after H; [reflexivity |].
  cbn [plain_name_from] in H. cbn [string_map Str.toLowerCase].
  assert (Hc : Str.is_word c = true /\ exists b, plain_name_from b s = true).
  { destruct (Str.code c =? 95)%N eqn:E.
    - apply andb_prop in H as [_ H]. split; [| eauto].
      apply N.eqb_eq in E. unfold Str.is_word. rewrite E. apply orb_true_r.
    - apply andb_prop in H as [H1 H2]. eauto. }
  destruct Hc as (Hc & b & Hs). rewrite (IH b Hs). f_equal.
  clear - Hc. destruct c as [[] [] [] [] [] [] [] []];
    solve [discriminate Hc | reflexivity].
Qed.

End PlainLabels.

(** X22: for every name made of letters, digits and underscores, without
    two underscores in a row, the key that [getOriginalValueFromNormalized]
    derives from the formatted label is the name in lower case. *)
Theorem label_round_trip_of_plain_names (f : string) :
  plain_name f = true ->
  featureName_of_label (formatLabel f) = Str.toLowerCase f.
Proof.
  intros H. unfold featureName_of_label, formatLabel. cbv zeta.
  rewrite !replace_1_same, underscores_replaced.
  pose proof (plain_name_label false f H) as H1.
  set (s1 := string_map underscore_to_space f) in *.
  pose proof (capitalized_plain false None s1 H1) as H2.
  pose proof (capitalized_lower None s1) as L2.
  set (s2 := Str.replace_g re_word_start None 0 s1) in *.
  pose proof (Tb_fixed_plain false None s2 H2) as H3.
  pose proof (Tb_fixed_lower None s2) as L3.
  set (s3 := Str.replace_1 (Str.literal "Tb" "TB") None s2) in *.
  rewrite (degree_unit_undone (String.length s3) s3 false None None
             (Nat.le_refl _) H3).
  rewrite (spaces_replaced false None s3 H3), lower_space_to_underscore.
  rewrite L3, L2. unfold s1. apply (plain_name_lower false f H).
Qed.

(** A name outside the catalog, with the abbreviation and the unit that
    [formatLabel] corrects. *)
Lemma label_round_trip_of_plain_names_witness :
  formatLabel "Spare_Tb_Left_C" =
    String.append "Spare TB Left (" (String Str.degree_sign "C)") /\
  featureName_of_label (formatLabel "Spare_Tb_Left_C") = "spare_tb_left_c".
Proof.
  split; [vm_compute; reflexivity |].
  rewrite (label_round_trip_of_plain_names "Spare_Tb_Left_C" eq_refl).
  reflexivity.
Defined.

(** ** Keys and labels *)

Section KeysAndLabels.

Lemma prefix_shape (p s : string) :
  String.prefix p s = true -> s = String.append p (Str.drop (String.length p) s).
Proof. intros H. symmetry. apply prefix_drop, H. Qed.

(** The pattern of the unit does not match in a key. *)
Lemma degree_unit_not_in_key (prev : option ascii) (s : string) :
  lowercase_key s = true -> re_degree_unit prev s = None.
Proof.
  intros H. unfold re_degree_unit.
  assert (E : Str.trim_start s = s).
  { destruct s as [| c s]; [reflexivity |]. cbn [lowercase_key] in H.
    apply andb_prop in H as [H _]. apply andb_prop in H as [H _].
    apply negb_true_iff in H. cbn [Str.trim_start]. rewrite H. reflexivity. }
  rewrite E. cbv zeta.
  destruct (String.prefix (String "(" (String Str.degree_sign "C)")) s) eqn:P;
    [| reflexivity].
  apply prefix_shape in P. rewrite P in H.
  change (String.append (String "(" (String Str.degree_sign "C)")) ?y)
    with (String "(" (String Str.degree_sign (String "C" (String ")" y)))) in H.
  cbn in H. discriminate H.
Qed.

Lemma lowercase_key_tail (c : ascii) (s : string) :
  lowercase_key (String c s) = true ->
  Str.is_whitespace c = false /\ Str.toLowerCase_char c = c /\
  lowercase_key s = true.
Proof.
  cbn [lowercase_key]. intros H.
  apply andb_prop in H as [H Hs]. apply andb_prop in H as [Hws Hlow].
  apply negb_true_iff in Hws. apply Ascii.eqb_eq in Hlow. auto.
Qed.

(** A key is the key of itself. *)
Lemma key_of_key (s : string) :
  lowercase_key s = true -> featureName_of_label s = s.
Proof.
  intros H. unfold featureName_of_label. cbv zeta. rewrite !replace_1_same.
  assert (H1 : forall prev, Str.replace_g re_degree_unit prev 0 s = s).
  { induction s as [| c s IH]; intros prev; [reflexivity |].
    rewrite (replace_g_no_match _ _ _ _ (degree_unit_not_in_key prev _ H)).
    destruct (lowercase_key_tail c s H) as (_ & _ & Hs).
    rewrite (IH Hs). reflexivity. }
  assert (H2 : forall prev, Str.replace_g re_spaces prev 0 s = s).
  { clear H1. induction s as [| c s IH]; intros prev; [reflexivity |].
    destruct (lowercase_key_tail c s H) as (Hws & _ & Hs).
    assert (M : re_spaces prev (String c s) = None).
    { unfold re_spaces. cbn [Str.trim_start]. rewrite Hws, Nat.sub_diag.
      reflexivity. }
    rewrite (replace_g_no_match _ _ _ _ M), (IH Hs). reflexivity. }
  rewrite H1, H2. clear H1 H2.
  induction s as [| c s IH]; [reflexivity |].
  destruct (lowercase_key_tail c s H) as (_ & Hlow & Hs).
  cbn [Str.toLowerCase]. rewrite Hlow, (IH Hs). reflexivity.
Qed.

Lemma string_forall_append (p : ascii -> bool) (a b : string) :
  string_forall p (String.append a b) = string_forall p a && string_forall p b.
Proof.
  induction a as [| c a IH]; [reflexivity |].
  change (String.append (String c a) b) with (String c (String.append a b)).
  cbn [string_forall]. rewrite IH. apply andb_assoc.
Qed.

Lemma string_forall_drop (p : ascii -> bool) (n : nat) (s : string) :
  string_forall p s = true -> string_forall p (Str.drop n s) = true.
Proof.
  revert s. induction n as [| n IH]; intros s H; [destruct s; exact H |].
  destruct s as [| c s]; [exact H |]. cbn [Str.drop].
  cbn [string_forall] in H. apply andb_prop in H as [_ H]. apply IH, H.
Qed.

(** A replacement of all matches keeps a property of the characters that
    the replacing texts have. *)
Lemma replace_g_forall (p : ascii -> bool) (re : Str.matcher) :
  (forall prev s k rep,
     string_forall p s = true -> re prev s = Some (k, rep) ->
     string_forall p rep = true) ->
  forall (s : string) (prev : option ascii) (skip : nat),
    string_forall p s = true ->
    string_forall p (Str.replace_g re prev skip s) = true.
Proof.
  intros Hre. induction s as [| c s IH]; intros prev skip H; [reflexivity |].
  pose proof H as Hcs.
  cbn [string_forall] in H. apply andb_prop in H as [Hc Hs].
  cbn [Str.replace_g]. destruct skip as [| k]; [| apply IH, Hs].
  destruct (re prev (String c s)) as [[[| k] rep] |] eqn:M.
  - cbn [string_forall]. rewrite Hc, IH by exact Hs. reflexivity.
  - rewrite string_forall_append, (Hre _ _ _ _ Hcs M), IH by exact Hs.
    reflexivity.
  - cbn [string_forall]. rewrite Hc, IH by exact Hs. reflexivity.
Qed.

Lemma replace_1_forall (p : ascii -> bool) (pat rep : string) :
  string_forall p rep = true ->
  forall (s : string) (prev : option ascii),
    string_forall p s = true ->
    string_forall p (Str.replace_1 (Str.literal pat rep) prev s) = true.
Proof.
  intros Hrep. induction s as [| c s IH]; intros prev H; [reflexivity |].
  cbn [Str.replace_1]. unfold Str.literal at 1.
  destruct (String.prefix pat (String c s)).
  - rewrite string_forall_append, Hrep, string_forall_drop by exact H. reflexivity.
  - cbn [string_forall] in *. apply andb_prop in H as [Hc Hs].
    rewrite Hc, IH by exact Hs. reflexivity.
Qed.

Lemma underscores_gone (s : string) :
  string_forall not_underscore (string_map underscore_to_space s) = true.
Proof.
  induction s as [| c s IH]; [reflexivity |].
  cbn [string_map string_forall]. rewrite IH, andb_true_r.
  unfold underscore_to_space, not_underscore.
  destruct (Str.code c =? 95)%N eqn:E; [reflexivity | rewrite E; reflexivity].
Qed.

End KeysAndLabels.

(** X23: a text without white space and without capital letters, as every
    key of the table of the inverse is, is the key of itself; so the key of
    a label is not changed when it is used as a label again. *)
Theorem key_of_label_idempotent (label : string) :
  featureName_of_label (featureName_of_label label) = featureName_of_label label /\
  (forall key : string,
     lowercase_key key = true -> featureName_of_label key = key) /\
  (forall (key : string) (m : JS.number),
     maxValues_lower !! key = Some m -> featureName_of_label key = key).
Proof.
  split; [apply key_of_key, featureName_of_label_key |].
  split; [exact key_of_key |].
  intros key m H. apply key_of_key.
  apply elem_of_list_to_map_2 in H.
  repeat (apply elem_of_cons in H as [H | H]; [injection H as -> _; reflexivity |]).
  apply elem_of_nil in H. contradiction.
Qed.

(** X24: a formatted label holds no underscore, whatever the name is. *)
Theorem formatLabel_without_underscore (text : string) :
  string_forall not_underscore (formatLabel text) = true.
Proof.
  unfold formatLabel. cbv zeta. rewrite underscores_replaced.
  apply replace_g_forall.
  { intros prev s k rep _ H. unfold re_trailing_C in H.
    destruct (String.prefix " C" s); [| discriminate].
    destruct (Str.drop 2 s) as [| d r].
    - injection H as _ <-. reflexivity.
    - destruct (Str.is_whitespace d); [| discriminate].
      injection H as _ <-. reflexivity. }
  apply replace_1_forall; [reflexivity |].
  apply replace_g_forall; [| apply underscores_gone].
  intros prev s k rep Hs H. unfold re_word_start in H.
  destruct s as [| c s]; [discriminate |].
  destruct (Str.is_word c && negb (from_option Str.is_word false prev));
    [| discriminate].
  injection H as _ <-. cbn [string_forall] in *. rewrite andb_true_r.
  apply andb_prop in Hs as [Hc _]. unfold not_underscore in *.
  destruct (toUpperCase_word_class c) as (_ & _ & E & _).
  rewrite E. exact Hc.
Qed.

(** ** Tabs *)

Section Tabs.

Lemma toggle_token (token : string) (force : bool) (classes : gset string)
    (other : string) :
  other ∈ toggle token force classes <->
  (if bool_decide (other = token) then force = true else other ∈ classes).
Proof.
  unfold toggle. destruct force; case_bool_decide as E.
  - subst. rewrite elem_of_union, elem_of_singleton. tauto.
  - rewrite elem_of_union, elem_of_singleton. tauto.
  - subst. rewrite elem_of_difference, elem_of_singleton.
    split; [tauto | discriminate].
  - rewrite elem_of_difference, elem_of_singleton. tauto.
Qed.

Lemma toggle_toggle (token : string) (f g : bool) (classes : gset string) :
  toggle token g (toggle token f classes) = toggle token g classes.
Proof.
  apply set_eq. intros other.
  rewrite (toggle_token token g (toggle token f classes)).
  rewrite (toggle_token token g classes).
  case_bool_decide as E; [reflexivity |].
  rewrite toggle_token, (bool_decide_eq_false_2 _ E). reflexivity.
Qed.

Lemma is_active_toggle (force : bool) (classes : gset string) :
  is_active (toggle "active" force classes) = force.
Proof.
  unfold is_active. destruct force.
  - apply bool_decide_eq_true. apply toggle_token. reflexivity.
  - apply bool_decide_eq_false. rewrite toggle_token. cbn. discriminate.
Qed.

Lemma active_panes_switched (tabName : option string) (panes : list tab_pane) :
  List.filter (fun pane => is_active pane.(pane_classList))
    (map (switch_pane tabName) panes)
  = map (switch_pane tabName)
      (List.filter (fun pane => strict_equal (Some pane.(pane_id)) tabName)
         panes).
Proof.
  induction panes as [| pane panes IH]; [reflexivity |].
  cbn [map List.filter].
  change (pane_classList (switch_pane tabName pane))
    with (toggle "active" (strict_equal (Some (pane_id pane)) tabName)
            (pane_classList pane)).
  rewrite is_active_toggle, IH.
  destruct (strict_equal (Some (pane_id pane)) tabName); reflexivity.
Qed.

Lemma filter_by_id_NoDup (name : string) (panes : list tab_pane) :
  NoDup (map pane_id panes) ->
  (length
     (List.filter (fun pane => strict_equal (Some pane.(pane_id)) (Some name))
        panes)
   = if bool_decide (name ∈ map pane_id panes) then 1 else 0)%nat.
Proof.
  induction panes as [| pane panes IH]; intros Hnd; [reflexivity |].
  cbn [map] in Hnd. apply NoDup_cons in Hnd as [Hnotin Hnd].
  specialize (IH Hnd). cbn [List.filter map]. unfold strict_equal at 1.
  destruct (decide (pane_id pane = name)) as [E | E].
  - rewrite bool_decide_eq_true_2 by (rewrite E; reflexivity).
    subst name. cbn [length]. rewrite IH.
    rewrite (bool_decide_eq_false_2 _ Hnotin).
    rewrite bool_decide_eq_true_2 by apply list_elem_of_here. reflexivity.
  - rewrite bool_decide_eq_false_2 by (intros [= H]; contradiction).
    rewrite IH. apply (f_equal (fun b : bool => if b then 1%nat else 0%nat)).
    apply bool_decide_ext. rewrite elem_of_cons.
    split; [tauto |]. intros [-> | H]; [contradiction E; reflexivity | exact H].
Qed.

End Tabs.

(** X25: after [switchTab(tabName)] a tab button has the token [active]
    exactly if its [data-tab] is [tabName], and a pane exactly if its [id]
    is; every other token, the names and the order of the elements are as
    before.  The state of [active] before the call has no effect, so of two
    calls the later one decides (and a repeated call changes nothing). *)
Theorem switchTab_effect (tabName : option string) (page : tab_page) :
  let page' := switchTab tabName page in
  map dataset_tab page'.(tab_buttons) = map dataset_tab page.(tab_buttons) /\
  map pane_id page'.(tab_panes) = map pane_id page.(tab_panes) /\
  (forall (i : nat) (btn : tab_btn),
     page.(tab_buttons) !! i = Some btn ->
     exists btn' : tab_btn,
       page'.(tab_buttons) !! i = Some btn' /\
       ("active" ∈ btn'.(btn_classList) <-> btn.(dataset_tab) = tabName) /\
       forall token : string,
         token <> "active" ->
         (token ∈ btn'.(btn_classList) <-> token ∈ btn.(btn_classList))) /\
  (forall (i : nat) (pane : tab_pane),
     page.(tab_panes) !! i = Some pane ->
     exists pane' : tab_pane,
       page'.(tab_panes) !! i = Some pane' /\
       ("active" ∈ pane'.(pane_classList) <-> Some pane.(pane_id) = tabName) /\
       forall token : string,
         token <> "active" ->
         (token ∈ pane'.(pane_classList) <-> token ∈ pane.(pane_classList))) /\
  (forall other : option string,
     switchTab other page' = switchTab other page).
Proof.
  cbv zeta. unfold switchTab. cbn [tab_buttons tab_panes].
  split; [rewrite map_map; reflexivity |].
  split; [rewrite map_map; reflexivity |].
  split; [| split].
  - intros i btn H. exists (switch_btn tabName btn).
    split; [change map with (@fmap list _); rewrite list_lookup_fmap, H;
            reflexivity |].
    cbn [switch_btn btn_classList]. split.
    + rewrite toggle_token. cbn. unfold strict_equal.
      apply bool_decide_eq_true.
    + intros token Hne. rewrite toggle_token.
      rewrite (bool_decide_eq_false_2 _ Hne). reflexivity.
  - intros i pane H. exists (switch_pane tabName pane).
    split; [change map with (@fmap list _); rewrite list_lookup_fmap, H;
            reflexivity |].
    cbn [switch_pane pane_classList]. split.
    + rewrite toggle_token. cbn. unfold strict_equal.
      apply bool_decide_eq_true.
    + intros token Hne. rewrite toggle_token.
      rewrite (bool_decide_eq_false_2 _ Hne). reflexivity.
  - intros other. rewrite !map_map. f_equal.
    + apply map_ext. intros btn. unfold switch_btn. cbn [dataset_tab btn_classList].
      rewrite toggle_toggle. reflexivity.
    + apply map_ext. intros pane. unfold switch_pane.
      cbn [pane_id pane_classList]. rewrite toggle_toggle. reflexivity.
Qed.

(** X26: when the panes have distinct ids, [switchTab] with the id of a
    pane leaves exactly that pane shown, whatever was shown before; with a
    name that is the id of no pane (or undefined) no pane is shown. *)
Theorem switchTab_shows_one_pane (tabName : option string) (page : tab_page)
    (Hids : NoDup (map pane_id page.(tab_panes))) :
  (forall name : string,
     tabName = Some name -> name ∈ map pane_id page.(tab_panes) ->
     exists pane : tab_pane,
       pane ∈ page.(tab_panes) /\ pane.(pane_id) = name /\
       active_panes (switchTab tabName page) = [switch_pane tabName pane]) /\
  ((forall name : string,
      tabName = Some name -> name ∉ map pane_id page.(tab_panes)) ->
   active_panes (switchTab tabName page) = []).
Proof.
  unfold active_panes, switchTab. cbn [tab_panes].
  rewrite active_panes_switched. split.
  - intros name -> Hin.
    pose proof (filter_by_id_NoDup name _ Hids) as Hlen.
    rewrite (bool_decide_eq_true_2 _ Hin) in Hlen.
    destruct (List.filter _ (tab_panes page)) as [| pane [| ? ?]] eqn:F;
      try discriminate Hlen.
    assert (Hp : In pane (List.filter
      (fun pane => strict_equal (Some (pane_id pane)) (Some name))
      (tab_panes page))) by (rewrite F; left; reflexivity).
    apply filter_In in Hp as [Hp1 Hp2].
    apply bool_decide_eq_true in Hp2. injection Hp2 as Hp2.
    exists pane. split; [apply list_elem_of_In, Hp1 |].
    split; [exact Hp2 | reflexivity].
  - intros Hnone.
    destruct (List.filter _ (tab_panes page)) as [| pane rest] eqn:F;
      [reflexivity |].
    assert (Hp : In pane (List.filter
      (fun pane => strict_equal (Some (pane_id pane)) tabName)
      (tab_panes page))) by (rewrite F; left; reflexivity).
    apply filter_In in Hp as [Hp1 Hp2].
    apply bool_decide_eq_true in Hp2.
    exfalso. apply (Hnone (pane_id pane)); [symmetry; exact Hp2 |].
    apply list_elem_of_In, in_map, Hp1.
Qed.

Lemma switchTab_shows_one_pane_witness :
  let page :=
    {| tab_buttons :=
         [ {| dataset_tab := Some "summary"; btn_classList := {[ "tab-btn" ]} |};
           {| dataset_tab := Some "details";
              btn_classList := {[ "tab-btn"; "active" ]} |} ];
       tab_panes :=
         [ {| pane_id := "summary"; pane_classList := {[ "tab-pane" ]} |};
           {| pane_id := "details";
              pane_classList := {[ "tab-pane"; "active" ]} |} ] |} in
  NoDup (map pane_id page.(tab_panes)) /\
  map pane_id (active_panes (switchTab (Some "summary") page)) = ["summary"].
Proof.
  intros page.
  assert (Hids : NoDup (map pane_id page.(tab_panes))).
  { apply NoDup_cons. split.
    - rewrite list_elem_of_singleton. discriminate.
    - apply NoDup_singleton. }
  split; [exact Hids |].
  destruct (switchTab_shows_one_pane (Some "summary") page Hids) as [H _].
  destruct (H "summary" eq_refl) as (pane & _ & Hid & ->).
  - apply list_elem_of_here.
  - cbn [map switch_pane pane_id]. rewrite Hid. reflexivity.
Defined.
